(** * Atlassian Teams provider: client and resource reconciler

    A shallow embedding of the Go sources of the Terraform provider and
    the properties of its specification.

    - [Client]: the current API client: [CreateTeam], [GetTeam],
      [UpdateTeam], [DeleteTeam] and [getTeamAPIPath] (client.go),
      [makeRequestWithHeaders] (the variant of client.go that takes custom
      headers; with no custom header it sets the same three headers as the
      plain [makeRequest]), the bulk operations and [GetTeams]
      (client_team_operations.go), the member operations
      (client_team_members.go).
    - [Resource]: the team resource of resource_team.go: the schema
      validators and [Create], [Read], [Update], [Delete].
    - [Legacy]: the superseded generation kept in the repository: the
      name/organization client with per-member calls, and the resource
      whose [Create] and [Update] manage members.

    The Go libraries the code calls are kept abstract: a [Transport]
    stands for net/http ([http.NewRequest], [http.Client.Do]), a codec for
    the decoding side of encoding/json.  Everything the repository itself
    decides (status-code branches, size checks, payload construction and
    struct tags, error strings, diagnostics) is written out as in the
    source.  Client calls run in a state monad over the world and the log
    of the requests handed to the transport, so that "nothing is sent" is a
    statement about that log. *)

From Stdlib Require Import ZArith Lia.
From stdpp Require Import base strings list gmap pretty.

Local Open Scope Z_scope.
#[local] Set Warnings "-clear-no-such-hyp".  (* set_solver clears hypotheses eagerly *)

(** ** HTTP vocabulary (net/http) *)

Definition StatusOK : Z := 200.
Definition StatusCreated : Z := 201.
Definition StatusNoContent : Z := 204.
Definition StatusNotFound : Z := 404.
Definition StatusGone : Z := 410.

(** A JSON document as [json.Marshal] lays it out: objects keep the order
    of the struct fields. *)
#[local] Unset Elimination Schemes.
Inductive json : Type :=
  | JNull
  | JBool (b : bool)
  | JNum (z : Z)
  | JStr (s : string)
  | JArr (items : list json)
  | JObj (fields : list (string * json)).
#[local] Set Elimination Schemes.

(** The keys of a serialized object. *)
Definition json_keys (j : json) : list string :=
  match j with
  | JObj fields => fields.*1
  | _ => []
  end.

(** Looking a key up in a serialized object. *)
Definition json_field (k : string) (j : json) : option json :=
  match j with
  | JObj fields => (list_find (λ kv, kv.1 = k) fields) ≫= (λ r, Some r.2.2)
  | _ => None
  end.

(** A string field tagged [omitempty] is dropped when it is empty. *)
Definition omitempty_string (key v : string) : list (string * json) :=
  if decide (v = EmptyString) then [] else [(key, JStr v)].

(** An integer field tagged [omitempty] is dropped when it is zero. *)
Definition omitempty_int (key : string) (v : Z) : list (string * json) :=
  if decide (v = 0) then [] else [(key, JNum v)].

Record Request := mkRequest {
  Method : string;
  URL : string;
  Header : gmap string string;
  ReqBody : option json
}.

Record Response := mkResponse {
  StatusCode : Z;
  Status : string;
  Body : string
}.

(** Go's [(T, error)] results; the error is carried by its message, which
    is all the callers look at ([err.Error()], [%s], [%w]). *)
Inductive result (A : Type) : Type :=
  | Ok (a : A)
  | Err (msg : string).
Arguments Ok {A} a.
Arguments Err {A} msg.

Definition is_ok {A} (r : result A) : bool :=
  match r with Ok _ => true | Err _ => false end.

(** ** The network

    [http.Client.Do] is a transition of the outside world: it consumes a
    request and yields a response or a transport error.  [http.NewRequest]
    may refuse a method or URL before anything is sent. *)
Record Transport := mkTransport {
  World : Type;
  roundTrip : Request → World → (string + Response) * World;
  newRequestErr : string → string → option string
}.

Section Net.
Context (T : Transport).

(** The state threaded through every client call: the world, and the
    log of the requests handed to [HTTPClient.Do], oldest first. *)
Record NetState := mkNetState {
  world : World T;
  sent : list Request
}.

Definition Net (A : Type) : Type := NetState → A * NetState.

Definition net_ret {A} (a : A) : Net A := λ s, (a, s).

Definition net_bind {A B} (m : Net A) (k : A → Net B) : Net B :=
  λ s, let (a, s') := m s in k a s'.

(** [c.HTTPClient.Do(req)] *)
Definition Do (req : Request) : Net (string + Response) :=
  λ s, let (r, w') := roundTrip T req (world s) in
       (r, {| world := w'; sent := sent s ++ [req] |}).
End Net.

Arguments net_ret {T A} a.
Arguments net_bind {T A B} m k.
Arguments world {T} _.
Arguments sent {T} _.
Arguments mkNetState {T} _ _.

Notation "x ←ₙ m ;; k" := (net_bind m (λ x, k))
  (at level 100, m at next level, right associativity).

(** ** Terraform framework values and diagnostics *)

Inductive TfString : Type :=
  | StringNull
  | StringUnknown
  | StringValue (s : string).

(** [types.String.ValueString]: the empty string for null and unknown. *)
Definition ValueString (v : TfString) : string :=
  match v with
  | StringValue s => s
  | _ => EmptyString
  end.

Inductive TfSet (A : Type) : Type :=
  | SetNull
  | SetUnknown
  | SetValue (elems : list A).
Arguments SetNull {A}.
Arguments SetUnknown {A}.
Arguments SetValue {A} elems.

Definition IsNull {A} (s : TfSet A) : bool :=
  match s with SetNull => true | _ => false end.
Definition IsUnknown {A} (s : TfSet A) : bool :=
  match s with SetUnknown => true | _ => false end.

Inductive Severity : Type := SeverityError | SeverityWarning.

Record Diagnostic := mkDiagnostic {
  severity : Severity;
  summary : string;
  detail : string
}.

Definition Diagnostics := list Diagnostic.

Definition AddError (summary detail : string) (d : Diagnostics) : Diagnostics :=
  d ++ [mkDiagnostic SeverityError summary detail].

Definition AddWarning (summary detail : string) (d : Diagnostics) : Diagnostics :=
  d ++ [mkDiagnostic SeverityWarning summary detail].

Definition is_error (d : Diagnostic) : bool :=
  match severity d with SeverityError => true | SeverityWarning => false end.


Definition HasError (d : Diagnostics) : bool := existsb is_error d.


(** ** The current client (client.go, client_team_members.go,
       client_team_operations.go) *)

Module Client.

Record AtlassianClient := mkClient {
  APIToken : string;
  Email : string;
  Organization : string;
  SiteId : string;
  OrgId : string;
  BaseURL : string
}.

Record TeamMember := mkTeamMember { AccountID : string }.

Record UserPermissions := mkUserPermissions {
  AddMembers : bool;
  DeleteTeam_perm : bool;
  RemoveMembers : bool;
  UpdateTeam_perm : bool
}.

(** [Members] is a slice: [None] is Go's nil slice. *)
Record Team := mkTeam {
  TeamID : string;
  DisplayName : string;
  Description : string;
  TeamType : string;
  OrganizationId : string;
  CreatorId : string;
  State : string;
  Members : option (list TeamMember);
  Permissions : option UserPermissions
}.

Record CreateTeamRequest := mkCreateTeamRequest {
  create_DisplayName : string;
  create_Description : string;
  create_TeamType : string;
  create_SiteId : string
}.

Record UpdateTeamRequest := mkUpdateTeamRequest {
  update_DisplayName : string;
  update_Description : string
}.

Record PublicApiBulkTeamOperationError := mkBulkError {
  bulk_Code : string;
  bulk_Message : string;
  bulk_TeamID : string
}.

Record PublicApiBulkOperationResponse := mkBulkResponse {
  bulk_Errors : list PublicApiBulkTeamOperationError;
  SuccessfulTeamIds : list string
}.

Record PublicApiTeamPaginationResult := mkPage {
  Cursor : string;
  Entities : list Team
}.

Record PublicApiMembershipFetchPayload := mkFetchPayload {
  After : string;
  First : Z
}.

Record PublicApiPageInfoAccountId := mkPageInfo {
  EndCursor : string;
  HasNextPage : bool
}.

Record PublicApiFetchResponse := mkFetchResponse {
  PageInfo : PublicApiPageInfoAccountId;
  Results : list TeamMember
}.

Record PublicApiMembershipCodedError := mkCodedError {
  err_AccountID : string;
  err_Code : string;
  err_Message : string
}.

Record PublicApiMembershipAddResponse := mkAddResponse {
  add_Errors : list PublicApiMembershipCodedError;
  add_Members : list TeamMember
}.

Record PublicApiMembershipRemoveResponse := mkRemoveResponse {
  remove_Errors : list PublicApiMembershipCodedError
}.

(** *** [json.Marshal] of the request structures, following the struct
    tags of the source. *)

Definition marshal_TeamMember (m : TeamMember) : json :=
  JObj [("accountId", JStr (AccountID m))].

Definition marshal_CreateTeamRequest (r : CreateTeamRequest) : json :=
  JObj ([("displayName", JStr (create_DisplayName r));
         ("description", JStr (create_Description r));
         ("teamType", JStr (create_TeamType r))]
        ++ omitempty_string "siteId" (create_SiteId r)).

Definition marshal_UpdateTeamRequest (r : UpdateTeamRequest) : json :=
  JObj (omitempty_string "displayName" (update_DisplayName r)
        ++ omitempty_string "description" (update_Description r)).

Definition marshal_BulkOperationRequest (teamIDs : list string) : json :=
  JObj [("teamIds", JArr (JStr <$> teamIDs))].

Definition marshal_MembershipPayload (members : list TeamMember) : json :=
  JObj [("members", JArr (marshal_TeamMember <$> members))].

Definition marshal_FetchPayload (p : PublicApiMembershipFetchPayload) : json :=
  JObj (omitempty_string "after" (After p) ++ omitempty_int "first" (First p)).

(** *** [json.NewDecoder(resp.Body).Decode]: kept abstract, one decoder
    per target type; a decoder either fills the structure or fails with
    a message. *)
Record Codec := mkCodec {
  decodeTeam : string → result Team;
  decodeBulk : string → result PublicApiBulkOperationResponse;
  decodePage : string → result PublicApiTeamPaginationResult;
  decodeFetch : string → result PublicApiFetchResponse;
  decodeAdd : string → result PublicApiMembershipAddResponse;
  decodeRemove : string → result PublicApiMembershipRemoveResponse
}.

Section WithExternals.
Context (T : Transport) (D : Codec).

(** [makeRequestWithHeaders]: [body] is already marshalled ([None] is
    the nil body; marshalling these structures cannot fail);
    [customHeaders] is [None] for the nil map. *)
Definition requestHeaders (c : AtlassianClient)
    (customHeaders : option (gmap string string)) : gmap string string :=
  let h0 : gmap string string :=
    <["Content-Type" := "application/json"]>
      (<["Authorization" := "Bearer " +:+ APIToken c]> ∅) in
  let custom := default ∅ customHeaders in
  let h1 :=
    if decide (default EmptyString (custom !! "Accept") = EmptyString)
    then <["Accept" := "application/json"]> h0 else h0 in
  (* [Header.Set] for every custom header: the custom value wins *)
  custom ∪ h1.

(** The request object once [http.NewRequest] has accepted it and the
    headers are set. *)
Definition buildRequest (c : AtlassianClient) (method path : string)
    (body : option json) (customHeaders : option (gmap string string))
    : Request :=
  mkRequest method (BaseURL c +:+ path) (requestHeaders c customHeaders) body.

Definition makeRequestWithHeaders (c : AtlassianClient) (method path : string)
    (body : option json) (customHeaders : option (gmap string string))
    : Net T (result Response) :=
  let fullURL := BaseURL c +:+ path in
  match newRequestErr T method fullURL with
  | Some e => net_ret (Err ("error creating request: " +:+ e))
  | None =>
    r ←ₙ Do T (buildRequest c method path body customHeaders) ;;
    match r with
    | inl e => net_ret (Err ("error making request: " +:+ e))
    | inr resp => net_ret (Ok resp)
    end
  end.

Definition makeRequest (c : AtlassianClient) (method path : string)
    (body : option json) : Net T (result Response) :=
  makeRequestWithHeaders c method path body None.

Definition getTeamAPIPath (c : AtlassianClient) (endpoint : string) : string :=
  let orgIdentifier :=
    if decide (OrgId c = EmptyString) then Organization c else OrgId c in
  "/public/teams/v1/org/" +:+ orgIdentifier +:+ endpoint.

Definition CreateTeam (c : AtlassianClient) (team : CreateTeamRequest)
    : Net T (result Team) :=
  r ←ₙ makeRequest c "POST" (getTeamAPIPath c "/teams/")
         (Some (marshal_CreateTeamRequest team)) ;;
  match r with
  | Err e => net_ret (Err ("error creating team: " +:+ e))
  | Ok resp =>
    if decide (StatusCode resp ≠ StatusCreated ∧ StatusCode resp ≠ StatusOK)
    then net_ret (Err ("API error creating team: " +:+ Status resp
                        +:+ " - " +:+ Body resp))
    else match decodeTeam D (Body resp) with
         | Err e => net_ret (Err ("error decoding response: " +:+ e))
         | Ok createdTeam => net_ret (Ok createdTeam)
         end
  end.

Definition GetTeam (c : AtlassianClient) (teamID : string)
    : Net T (result Team) :=
  r ←ₙ makeRequest c "GET" (getTeamAPIPath c ("/teams/" +:+ teamID)) None ;;
  match r with
  | Err e => net_ret (Err ("error getting team: " +:+ e))
  | Ok resp =>
    if decide (StatusCode resp = StatusNotFound)
    then net_ret (Err ("team not found: " +:+ teamID))
    else if decide (StatusCode resp ≠ StatusOK)
    then net_ret (Err ("API error getting team: " +:+ Status resp
                        +:+ " - " +:+ Body resp))
    else match decodeTeam D (Body resp) with
         | Err e => net_ret (Err ("error decoding response: " +:+ e))
         | Ok team => net_ret (Ok team)
         end
  end.

Definition UpdateTeam (c : AtlassianClient) (teamID : string)
    (updateReq : UpdateTeamRequest) : Net T (result Team) :=
  r ←ₙ makeRequest c "PATCH" (getTeamAPIPath c ("/teams/" +:+ teamID))
         (Some (marshal_UpdateTeamRequest updateReq)) ;;
  match r with
  | Err e => net_ret (Err ("error updating team: " +:+ e))
  | Ok resp =>
    if decide (StatusCode resp = StatusNotFound)
    then net_ret (Err ("team not found: " +:+ teamID))
    else if decide (StatusCode resp ≠ StatusOK)
    then net_ret (Err ("API error updating team: " +:+ Status resp
                        +:+ " - " +:+ Body resp))
    else match decodeTeam D (Body resp) with
         | Err e => net_ret (Err ("error decoding response: " +:+ e))
         | Ok updatedTeam => net_ret (Ok updatedTeam)
         end
  end.

(** [DeleteTeam] returns only an error: [None] is Go's nil. *)
Definition DeleteTeam (c : AtlassianClient) (teamID : string)
    : Net T (option string) :=
  r ←ₙ makeRequest c "DELETE" (getTeamAPIPath c ("/teams/" +:+ teamID)) None ;;
  match r with
  | Err e => net_ret (Some ("error deleting team: " +:+ e))
  | Ok resp =>
    if decide (StatusCode resp = StatusNotFound)
    then (* Team already doesn't exist, consider it successful *)
      net_ret None
    else if decide (StatusCode resp ≠ StatusNoContent
                    ∧ StatusCode resp ≠ StatusOK)
    then net_ret (Some ("API error deleting team: " +:+ Status resp
                         +:+ " - " +:+ Body resp))
    else net_ret None
  end.

(** *** client_team_operations.go *)

Definition ArchiveTeams (c : AtlassianClient) (orgID : string)
    (teamIDs : list string) : Net T (result PublicApiBulkOperationResponse) :=
  if decide (length teamIDs = 0%nat ∨ (100 < length teamIDs)%nat)
  then net_ret (Err ("teamIDs must contain between 1 and 100 items, got "
                      +:+ pretty (length teamIDs)))
  else
    let path := "/public/teams/v1/org/" +:+ orgID +:+ "/teams/archive" in
    r ←ₙ makeRequest c "POST" path
           (Some (marshal_BulkOperationRequest teamIDs)) ;;
    match r with
    | Err e => net_ret (Err ("error archiving teams: " +:+ e))
    | Ok resp =>
      if decide (StatusCode resp ≠ StatusOK)
      then net_ret (Err ("API error archiving teams: " +:+ Status resp
                          +:+ " - " +:+ Body resp))
      else match decodeBulk D (Body resp) with
           | Err e => net_ret (Err ("error decoding archive response: " +:+ e))
           | Ok archiveResponse => net_ret (Ok archiveResponse)
           end
    end.

Definition UnarchiveTeams (c : AtlassianClient) (orgID : string)
    (teamIDs : list string) : Net T (result PublicApiBulkOperationResponse) :=
  if decide (length teamIDs = 0%nat ∨ (100 < length teamIDs)%nat)
  then net_ret (Err ("teamIDs must contain between 1 and 100 items, got "
                      +:+ pretty (length teamIDs)))
  else
    let path := "/public/teams/v1/org/" +:+ orgID +:+ "/teams/unarchive" in
    r ←ₙ makeRequest c "POST" path
           (Some (marshal_BulkOperationRequest teamIDs)) ;;
    match r with
    | Err e => net_ret (Err ("error unarchiving teams: " +:+ e))
    | Ok resp =>
      if decide (StatusCode resp ≠ StatusOK)
      then net_ret (Err ("API error unarchiving teams: " +:+ Status resp
                          +:+ " - " +:+ Body resp))
      else match decodeBulk D (Body resp) with
           | Err e => net_ret (Err ("error decoding unarchive response: " +:+ e))
           | Ok unarchiveResponse => net_ret (Ok unarchiveResponse)
           end
    end.

Definition RestoreTeam (c : AtlassianClient) (orgID teamID : string)
    : Net T (option string) :=
  let path := "/public/teams/v1/org/" +:+ orgID +:+ "/teams/" +:+ teamID
              +:+ "/restore" in
  r ←ₙ makeRequest c "POST" path None ;;
  match r with
  | Err e => net_ret (Some ("error restoring team: " +:+ e))
  | Ok resp =>
    if decide (StatusCode resp = StatusNotFound)
    then net_ret (Some ("team not found for restore: " +:+ teamID))
    else if decide (StatusCode resp ≠ StatusNoContent)
    then net_ret (Some ("API error restoring team: " +:+ Status resp
                         +:+ " - " +:+ Body resp))
    else net_ret None
  end.

(** The [size] query parameter of [GetTeams]: the local variable is
    overwritten with 300 when it is larger, then formatted. *)
Definition getTeams_size (size : Z) : option Z :=
  if decide (size > 0)
  then Some (if decide (size > 300) then 300 else size)
  else None.

(** The [queryParams] slice built by [GetTeams]. *)
Definition getTeams_queryParams (siteId : string) (size : Z) (cursor : string)
    : list string :=
  (if decide (siteId ≠ EmptyString) then ["siteId=" +:+ siteId] else [])
  ++ (match getTeams_size size with
      | Some sz => ["size=" +:+ pretty sz]
      | None => []
      end)
  ++ (if decide (cursor ≠ EmptyString) then ["cursor=" +:+ cursor] else []).

(** [strings.Join] *)
Fixpoint Join (elems : list string) (sep : string) : string :=
  match elems with
  | [] => EmptyString
  | x :: rest =>
    match rest with
    | [] => x
    | _ => x +:+ sep +:+ Join rest sep
    end
  end.

Definition getTeams_path (orgID siteId : string) (size : Z) (cursor : string)
    : string :=
  let path := "/public/teams/v1/org/" +:+ orgID +:+ "/teams" in
  let queryParams := getTeams_queryParams siteId size cursor in
  if decide ((0 < length queryParams)%nat)
  then path +:+ "?" +:+ Join queryParams "&"
  else path.

Definition GetTeams (c : AtlassianClient) (orgID siteId : string) (size : Z)
    (cursor : string) : Net T (result PublicApiTeamPaginationResult) :=
  r ←ₙ makeRequest c "GET" (getTeams_path orgID siteId size cursor) None ;;
  match r with
  | Err e => net_ret (Err ("error getting teams list: " +:+ e))
  | Ok resp =>
    if decide (StatusCode resp ≠ StatusOK)
    then net_ret (Err ("API error getting teams list: " +:+ Status resp
                        +:+ " - " +:+ Body resp))
    else match decodePage D (Body resp) with
         | Err e => net_ret (Err ("error decoding teams list response: " +:+ e))
         | Ok teamsResponse => net_ret (Ok teamsResponse)
         end
  end.

(** *** client_team_members.go *)

Definition acceptAny : option (gmap string string) :=
  Some {[ "Accept" := "*/*" ]}.

(** The request body [FetchTeamMembers] fills in: a zero-valued
    payload whose fields are set only under the guards of the source. *)
Definition fetch_payload (after : string) (first : Z)
    : PublicApiMembershipFetchPayload :=
  let payload := mkFetchPayload EmptyString 0 in
  let payload :=
    if decide (after ≠ EmptyString) then mkFetchPayload after (First payload)
    else payload in
  if decide (first > 0 ∧ first ≤ 50) then mkFetchPayload (After payload) first
  else payload.

Definition FetchTeamMembers (c : AtlassianClient) (orgID teamID siteId after : string)
    (first : Z) : Net T (result PublicApiFetchResponse) :=
  let path := "/public/teams/v1/org/" +:+ orgID +:+ "/teams/" +:+ teamID
              +:+ "/members" in
  let path := if decide (siteId ≠ EmptyString) then path +:+ "?siteId=" +:+ siteId
              else path in
  let payload := fetch_payload after first in
  r ←ₙ makeRequestWithHeaders c "POST" path
         (Some (marshal_FetchPayload payload)) acceptAny ;;
  match r with
  | Err e => net_ret (Err ("error fetching team members: " +:+ e))
  | Ok resp =>
    if decide (StatusCode resp ≠ StatusOK)
    then net_ret (Err ("API error fetching team members: " +:+ Status resp
                        +:+ " - " +:+ Body resp))
    else match decodeFetch D (Body resp) with
         | Err e => net_ret (Err ("error decoding team members response: " +:+ e))
         | Ok membersResponse => net_ret (Ok membersResponse)
         end
  end.

Definition AddTeamMembers (c : AtlassianClient) (orgID teamID : string)
    (members : list TeamMember) : Net T (result PublicApiMembershipAddResponse) :=
  let path := "/public/teams/v1/org/" +:+ orgID +:+ "/teams/" +:+ teamID
              +:+ "/members/add" in
  r ←ₙ makeRequestWithHeaders c "POST" path
         (Some (marshal_MembershipPayload members)) acceptAny ;;
  match r with
  | Err e => net_ret (Err ("error adding team members: " +:+ e))
  | Ok resp =>
    if decide (StatusCode resp ≠ StatusOK)
    then net_ret (Err ("API error adding team members: " +:+ Status resp
                        +:+ " - " +:+ Body resp))
    else match decodeAdd D (Body resp) with
         | Err e => net_ret (Err ("error decoding add members response: " +:+ e))
         | Ok addResponse => net_ret (Ok addResponse)
         end
  end.

Definition RemoveTeamMembers (c : AtlassianClient) (orgID teamID : string)
    (members : list TeamMember)
    : Net T (result PublicApiMembershipRemoveResponse) :=
  let path := "/public/teams/v1/org/" +:+ orgID +:+ "/teams/" +:+ teamID
              +:+ "/members/remove" in
  r ←ₙ makeRequestWithHeaders c "POST" path
         (Some (marshal_MembershipPayload members)) acceptAny ;;
  match r with
  | Err e => net_ret (Err ("error removing team members: " +:+ e))
  | Ok resp =>
    if decide (StatusCode resp ≠ StatusOK)
    then net_ret (Err ("API error removing team members: " +:+ Status resp
                        +:+ " - " +:+ Body resp))
    else match decodeRemove D (Body resp) with
         | Err e => net_ret (Err ("error decoding remove members response: " +:+ e))
         | Ok removeResponse => net_ret (Ok removeResponse)
         end
  end.

End WithExternals.
End Client.

(** ** The team resource, current generation (resource_team.go) *)

Module Resource.

Record TeamMemberModel := mkTeamMemberModel { AccountID : TfString }.

Record TeamResourceModel := mkModel {
  ID : TfString;
  DisplayName : TfString;
  Description : TfString;
  TeamType : TfString;
  SiteId : TfString;
  OrganizationId : TfString;
  CreatorId : TfString;
  State : TfString;
  Members : TfSet TeamMemberModel
}.

(** *** Schema: the attribute validators

    [stringvalidator.OneOf]: null and unknown values are not validated;
    a known value must be equal to one of the listed strings, otherwise
    one error diagnostic is returned (its wording is the library's and
    plays no role below). *)
Definition OneOf (values : list string) (attribute : string) (v : TfString)
    : Diagnostics :=
  match v with
  | StringValue s =>
    if decide (s ∈ values) then []
    else [mkDiagnostic SeverityError "Invalid Attribute Value Match"
            ("Attribute " +:+ attribute +:+ " value must be one of the allowed values, got: "
             +:+ s)]
  | _ => []
  end.

Definition team_type_values : list string :=
  ["OPEN"; "MEMBER_INVITE"; "EXTERNAL"; "ORG_ADMIN_MANAGED"].

(** The string attributes of [Schema] with the validators each one
    declares, in the order of the source. *)
Definition Schema_validators
    : list (string * (TeamResourceModel → TfString)
            * list (string → TfString → Diagnostics)) :=
  [ ("id", ID, []);
    ("display_name", DisplayName, []);
    ("description", Description, []);
    ("team_type", TeamType, [OneOf team_type_values]);
    ("site_id", SiteId, []);
    ("organization_id", OrganizationId, []);
    ("creator_id", CreatorId, []);
    ("state", State, []) ].

(** Resource validation: the framework runs every validator of every
    attribute on the configuration; it talks to no client. *)
Definition ValidateConfig (config : TeamResourceModel) : Diagnostics :=
  concat ((λ a, concat ((λ v, v a.1.1 (a.1.2 config)) <$> a.2))
          <$> Schema_validators).

(** What the framework hands to an operation: the diagnostics of
    decoding the plan (or prior state) into the model
    ([req.Plan.Get(ctx, &data)]) and the decoded model. *)
Record Decoded := mkDecoded {
  GetDiags : Diagnostics;
  Data : TeamResourceModel
}.

(** [resp.State] and [resp.Diagnostics] when the operation returns;
    [None] is a state without resource (never set, or removed).
    [resp.State.Set(ctx, &data)] stores a model of the schema's own types
    and adds no diagnostic. *)
Record OpResponse := mkOpResponse {
  resp_State : option TeamResourceModel;
  resp_Diagnostics : Diagnostics
}.

Section WithExternals.
Context (T : Transport) (D : Client.Codec).

Definition memberModel (m : Client.TeamMember) : TeamMemberModel :=
  mkTeamMemberModel (StringValue (Client.AccountID m)).

(** The creation payload built from the plan. *)
Definition createReq_of (data : TeamResourceModel) : Client.CreateTeamRequest :=
  Client.mkCreateTeamRequest
    (ValueString (DisplayName data)) (ValueString (Description data))
    (ValueString (TeamType data)) (ValueString (SiteId data)).

Definition Create (client : Client.AtlassianClient) (plan : Decoded)
    : Net T OpResponse :=
  let data := Data plan in
  let diags := GetDiags plan in
  if HasError diags then net_ret (mkOpResponse None diags)
  else
    r ←ₙ Client.CreateTeam T D client (createReq_of data) ;;
    match r with
    | Err err =>
      net_ret (mkOpResponse None
                 (AddError "Client Error"
                    ("Unable to create team, got error: " +:+ err) diags))
    | Ok team =>
      let members :=
        match Client.Members team with
        | Some ms => SetValue (memberModel <$> ms)
        | None => Members data
        end in
      let data :=
        mkModel (StringValue (Client.TeamID team))
                (DisplayName data) (Description data) (TeamType data)
                (SiteId data)
                (StringValue (Client.OrganizationId team))
                (StringValue (Client.CreatorId team))
                (StringValue (Client.State team))
                members in
      net_ret (mkOpResponse (Some data) diags)
    end.

(** [Read]: [resp.State] starts as the prior state. *)
Definition Read (client : Client.AtlassianClient) (prior : Decoded)
    : Net T OpResponse :=
  let data := Data prior in
  let diags := GetDiags prior in
  if HasError diags then net_ret (mkOpResponse (Some data) diags)
  else
    r ←ₙ Client.GetTeam T D client (ValueString (ID data)) ;;
    match r with
    | Err err =>
      if decide (err = "team not found: " +:+ ValueString (ID data))
      then (* Team was deleted outside Terraform: RemoveResource *)
        net_ret (mkOpResponse None diags)
      else
        net_ret (mkOpResponse (Some data)
                   (AddError "Client Error"
                      ("Unable to read team, got error: " +:+ err) diags))
    | Ok team =>
      let data :=
        mkModel (ID data)
                (StringValue (Client.DisplayName team))
                (StringValue (Client.Description team))
                (StringValue (Client.TeamType team))
                (SiteId data)
                (StringValue (Client.OrganizationId team))
                (StringValue (Client.CreatorId team))
                (StringValue (Client.State team))
                (Members data) in
      net_ret (mkOpResponse (Some data) diags)
    end.

(** The update payload built from the plan. *)
Definition updateReq_of (data : TeamResourceModel) : Client.UpdateTeamRequest :=
  Client.mkUpdateTeamRequest
    (ValueString (DisplayName data)) (ValueString (Description data)).

(** [Update]: [resp.State] starts as the prior state, the model is
    decoded from the plan. *)
Definition Update (client : Client.AtlassianClient) (plan : Decoded)
    (priorState : TeamResourceModel) : Net T OpResponse :=
  let data := Data plan in
  let diags := GetDiags plan in
  if HasError diags then net_ret (mkOpResponse (Some priorState) diags)
  else
    r ←ₙ Client.UpdateTeam T D client (ValueString (ID data)) (updateReq_of data) ;;
    match r with
    | Err err =>
      net_ret (mkOpResponse (Some priorState)
                 (AddError "Client Error"
                    ("Unable to update team, got error: " +:+ err) diags))
    | Ok team =>
      let data :=
        mkModel (ID data)
                (StringValue (Client.DisplayName team))
                (StringValue (Client.Description team))
                (StringValue (Client.TeamType team))
                (SiteId data)
                (StringValue (Client.OrganizationId team))
                (CreatorId data)
                (StringValue (Client.State team))
                (Members data) in
      net_ret (mkOpResponse (Some data) diags)
    end.

(** [Delete] leaves [resp.State] to the framework, which drops the
    resource when the diagnostics carry no error. *)
Definition Delete (client : Client.AtlassianClient) (prior : Decoded)
    : Net T Diagnostics :=
  let data := Data prior in
  let diags := GetDiags prior in
  if HasError diags then net_ret diags
  else
    err ←ₙ Client.DeleteTeam T client (ValueString (ID data)) ;;
    match err with
    | Some e =>
      net_ret (AddError "Client Error"
                 ("Unable to delete team, got error: " +:+ e) diags)
    | None => net_ret diags
    end.

End WithExternals.


(** [req.ProviderData], an [any]: nil, a [*AtlassianClient], or a value
    of another dynamic type, of which the source only prints the name. *)
Inductive ProviderData :=
| ProviderDataNil
| ProviderDataClient (client : Client.AtlassianClient)
| ProviderDataOther (typeName : string).

Record TeamResource := mkTeamResource {
  r_client : option Client.AtlassianClient
}.

(** [Configure] of the resource: it stores the client the provider
    handed over. *)
Definition Configure (r : TeamResource) (req_ProviderData : ProviderData)
    (diags : Diagnostics) : TeamResource * Diagnostics :=
  match req_ProviderData with
  | ProviderDataNil =>
    (* Prevent panic if the provider has not been configured. *)
    (r, diags)
  | ProviderDataOther typeName =>
    (r, AddError "Unexpected Resource Configure Type"
          ("Expected *AtlassianClient, got: " +:+ typeName
           +:+ ". Please report this issue to the provider developers.") diags)
  | ProviderDataClient client => (mkTeamResource (Some client), diags)
  end.

End Resource.

(** ** The legacy generation: client and team resource *)

Module Legacy.

Record AtlassianClient := mkClient {
  APIToken : string;
  Email : string;
  Organization : string;
  BaseURL : string
}.

Record TeamMember := mkTeamMember {
  AccountID : string;
  member_Email : string;
  Role : string
}.

Record Team := mkTeam {
  team_ID : string;
  Name : string;
  Description : string;
  Type_ : string;
  team_Organization : string;
  Members : option (list TeamMember);
  CreatedAt : string;
  UpdatedAt : string
}.

Record CreateTeamRequest := mkCreateTeamRequest {
  create_Name : string;
  create_Description : string;
  create_Type : string;
  create_Organization : string
}.

Record UpdateTeamRequest := mkUpdateTeamRequest {
  update_Name : string;
  update_Description : string
}.

Definition marshal_TeamMember (m : TeamMember) : json :=
  JObj ([("accountId", JStr (AccountID m))]
        ++ omitempty_string "email" (member_Email m)
        ++ omitempty_string "role" (Role m)).

Definition marshal_CreateTeamRequest (r : CreateTeamRequest) : json :=
  JObj ([("name", JStr (create_Name r))]
        ++ omitempty_string "description" (create_Description r)
        ++ [("type", JStr (create_Type r));
            ("organization", JStr (create_Organization r))]).

Definition marshal_UpdateTeamRequest (r : UpdateTeamRequest) : json :=
  JObj (omitempty_string "name" (update_Name r)
        ++ omitempty_string "description" (update_Description r)).

(** What the legacy code takes from its libraries and runtime: the JSON
    decoders, the value [SetBasicAuth] writes into the Authorization
    header, and the order in which a [range] loop visits a map, which
    Go leaves unspecified: any enumeration of the entries. *)
Record Runtime := mkRuntime {
  decodeTeam : string → result Team;
  decodeMembers : string → result (list TeamMember);
  basicAuth : string → string → string;
  rangeOf : ∀ A : Type, gmap string A → list (string * A);
  rangeOf_perm : ∀ (A : Type) (m : gmap string A), rangeOf A m ≡ₚ map_to_list m
}.

Record TeamMemberModel := mkTeamMemberModel {
  m_AccountID : TfString;
  m_Email : TfString;
  m_Role : TfString
}.

Record TeamResourceModel := mkModel {
  ID : TfString;
  m_Name : TfString;
  m_Description : TfString;
  m_Type : TfString;
  m_Organization : TfString;
  m_Members : TfSet TeamMemberModel;
  m_CreatedAt : TfString;
  m_UpdatedAt : TfString
}.

Record Decoded := mkDecoded {
  GetDiags : Diagnostics;
  Data : TeamResourceModel
}.

Record OpResponse := mkOpResponse {
  resp_State : option TeamResourceModel;
  resp_Diagnostics : Diagnostics
}.

Section WithExternals.
Context (T : Transport) (G : Runtime).

Definition buildRequest (c : AtlassianClient) (method path : string)
    (body : option json) : Request :=
  let h : gmap string string :=
    <["Accept" := "application/json"]>
      (<["Content-Type" := "application/json"]>
         (<["Authorization" := basicAuth G (Email c) (APIToken c)]> ∅)) in
  mkRequest method (BaseURL c +:+ path) h body.

Definition makeRequest (c : AtlassianClient) (method path : string)
    (body : option json) : Net T (result Response) :=
  match newRequestErr T method (BaseURL c +:+ path) with
  | Some e => net_ret (Err ("error creating request: " +:+ e))
  | None =>
    r ←ₙ Do T (buildRequest c method path body) ;;
    match r with
    | inl e => net_ret (Err ("error making request: " +:+ e))
    | inr resp => net_ret (Ok resp)
    end
  end.

Definition teamsPath (c : AtlassianClient) : string :=
  "/admin/v1/orgs/" +:+ Organization c +:+ "/teams".

Definition CreateTeam (c : AtlassianClient) (team : CreateTeamRequest)
    : Net T (result Team) :=
  r ←ₙ makeRequest c "POST" (teamsPath c)
         (Some (marshal_CreateTeamRequest team)) ;;
  match r with
  | Err e => net_ret (Err ("error creating team: " +:+ e))
  | Ok resp =>
    if decide (StatusCode resp ≠ StatusCreated)
    then net_ret (Err ("API error creating team: " +:+ Status resp
                        +:+ " - " +:+ Body resp))
    else match decodeTeam G (Body resp) with
         | Err e => net_ret (Err ("error decoding response: " +:+ e))
         | Ok createdTeam => net_ret (Ok createdTeam)
         end
  end.

Definition UpdateTeam (c : AtlassianClient) (teamID : string)
    (updateReq : UpdateTeamRequest) : Net T (result Team) :=
  r ←ₙ makeRequest c "PUT" (teamsPath c +:+ "/" +:+ teamID)
         (Some (marshal_UpdateTeamRequest updateReq)) ;;
  match r with
  | Err e => net_ret (Err ("error updating team: " +:+ e))
  | Ok resp =>
    if decide (StatusCode resp = StatusNotFound)
    then net_ret (Err ("team not found: " +:+ teamID))
    else if decide (StatusCode resp ≠ StatusOK)
    then net_ret (Err ("API error updating team: " +:+ Status resp
                        +:+ " - " +:+ Body resp))
    else match decodeTeam G (Body resp) with
         | Err e => net_ret (Err ("error decoding response: " +:+ e))
         | Ok updatedTeam => net_ret (Ok updatedTeam)
         end
  end.

Definition AddTeamMember (c : AtlassianClient) (teamID : string)
    (member : TeamMember) : Net T (option string) :=
  r ←ₙ makeRequest c "POST" (teamsPath c +:+ "/" +:+ teamID +:+ "/members")
         (Some (marshal_TeamMember member)) ;;
  match r with
  | Err e => net_ret (Some ("error adding team member: " +:+ e))
  | Ok resp =>
    if decide (StatusCode resp ≠ StatusCreated ∧ StatusCode resp ≠ StatusOK)
    then net_ret (Some ("API error adding team member: " +:+ Status resp
                         +:+ " - " +:+ Body resp))
    else net_ret None
  end.

Definition RemoveTeamMember (c : AtlassianClient) (teamID accountID : string)
    : Net T (option string) :=
  r ←ₙ makeRequest c "DELETE"
         (teamsPath c +:+ "/" +:+ teamID +:+ "/members/" +:+ accountID) None ;;
  match r with
  | Err e => net_ret (Some ("error removing team member: " +:+ e))
  | Ok resp =>
    if decide (StatusCode resp = StatusNotFound)
    then (* Member already doesn't exist, consider it successful *)
      net_ret None
    else if decide (StatusCode resp ≠ StatusNoContent
                    ∧ StatusCode resp ≠ StatusOK)
    then net_ret (Some ("API error removing team member: " +:+ Status resp
                         +:+ " - " +:+ Body resp))
    else net_ret None
  end.

Definition GetTeamMembers (c : AtlassianClient) (teamID : string)
    : Net T (result (list TeamMember)) :=
  r ←ₙ makeRequest c "GET" (teamsPath c +:+ "/" +:+ teamID +:+ "/members") None ;;
  match r with
  | Err e => net_ret (Err ("error getting team members: " +:+ e))
  | Ok resp =>
    if decide (StatusCode resp ≠ StatusOK)
    then net_ret (Err ("API error getting team members: " +:+ Status resp
                        +:+ " - " +:+ Body resp))
    else match decodeMembers G (Body resp) with
         | Err e => net_ret (Err ("error decoding response: " +:+ e))
         | Ok members => net_ret (Ok members)
         end
  end.

(** *** The legacy resource

    [data.Members.ElementsAs(ctx, &members, false)] converts the elements
    of a known set into models whose fields are framework strings; for
    this schema it yields the elements and no diagnostic. *)

Definition teamMember_of (member : TeamMemberModel) : TeamMember :=
  mkTeamMember (ValueString (m_AccountID member))
               (ValueString (m_Email member)) (ValueString (m_Role member)).

(** The loop of [Create] over the declared members: one
    [AddTeamMember] call each, a failure becomes a warning and the
    loop goes on. *)
Fixpoint create_addMembers (c : AtlassianClient) (teamID : string)
    (members : list TeamMemberModel) (diags : Diagnostics)
    : Net T Diagnostics :=
  match members with
  | [] => net_ret diags
  | member :: rest =>
    let teamMember := teamMember_of member in
    err ←ₙ AddTeamMember c teamID teamMember ;;
    let diags :=
      match err with
      | Some e =>
        AddWarning "Member Addition Failed"
          ("Unable to add member " +:+ AccountID teamMember
           +:+ " to team: " +:+ e) diags
      | None => diags
      end in
    create_addMembers c teamID rest diags
  end.

(** The creation payload built from the plan; an organization left unset
    in the resource is taken from the client. *)
Definition createReq_of (client : AtlassianClient) (data : TeamResourceModel)
    : CreateTeamRequest :=
  let org := ValueString (m_Organization data) in
  mkCreateTeamRequest (ValueString (m_Name data))
    (ValueString (m_Description data)) (ValueString (m_Type data))
    (if decide (org = EmptyString) then Organization client else org).

Definition Create (client : AtlassianClient) (plan : Decoded)
    : Net T OpResponse :=
  let data := Data plan in
  let diags := GetDiags plan in
  if HasError diags then net_ret (mkOpResponse None diags)
  else
    r ←ₙ CreateTeam client (createReq_of client data) ;;
    match r with
    | Err err =>
      net_ret (mkOpResponse None
                 (AddError "Client Error"
                    ("Unable to create team, got error: " +:+ err) diags))
    | Ok team =>
      let data :=
        mkModel (StringValue (team_ID team)) (m_Name data)
                (m_Description data) (m_Type data) (m_Organization data)
                (m_Members data)
                (StringValue (CreatedAt team)) (StringValue (UpdatedAt team)) in
      diags ←ₙ
        (match m_Members data with
         | SetValue members => create_addMembers client (team_ID team) members diags
         | _ => net_ret diags
         end) ;;
      net_ret (mkOpResponse (Some data) diags)
    end.

(** [newMemberMap] and [currentMemberMap]: filled in slice order, a
    later entry with the same account id replaces an earlier one. *)
Definition newMemberMap_of (newMembers : list TeamMemberModel)
    : gmap string TeamMemberModel :=
  fold_left (λ m member, <[ValueString (m_AccountID member) := member]> m)
            newMembers ∅.

Definition currentMemberMap_of (currentMembers : list TeamMember)
    : gmap string TeamMember :=
  fold_left (λ m member, <[AccountID member := member]> m) currentMembers ∅.

(** First loop of [Update]: remove members no longer in the plan. *)
Fixpoint update_removeMembers (c : AtlassianClient) (teamID : string)
    (newMemberMap : gmap string TeamMemberModel)
    (entries : list (string * TeamMember)) (diags : Diagnostics)
    : Net T Diagnostics :=
  match entries with
  | [] => net_ret diags
  | (accountID, _) :: rest =>
    match newMemberMap !! accountID with
    | Some _ => update_removeMembers c teamID newMemberMap rest diags
    | None =>
      err ←ₙ RemoveTeamMember c teamID accountID ;;
      let diags :=
        match err with
        | Some e =>
          AddWarning "Member Removal Failed"
            ("Unable to remove member " +:+ accountID
             +:+ " from team: " +:+ e) diags
        | None => diags
        end in
      update_removeMembers c teamID newMemberMap rest diags
    end
  end.

(** Second loop of [Update]: add the new members. *)
Fixpoint update_addMembers (c : AtlassianClient) (teamID : string)
    (currentMemberMap : gmap string TeamMember)
    (entries : list (string * TeamMemberModel)) (diags : Diagnostics)
    : Net T Diagnostics :=
  match entries with
  | [] => net_ret diags
  | (accountID, member) :: rest =>
    match currentMemberMap !! accountID with
    | Some _ => update_addMembers c teamID currentMemberMap rest diags
    | None =>
      err ←ₙ AddTeamMember c teamID (teamMember_of member) ;;
      let diags :=
        match err with
        | Some e =>
          AddWarning "Member Addition Failed"
            ("Unable to add member " +:+ accountID +:+ " to team: " +:+ e) diags
        | None => diags
        end in
      update_addMembers c teamID currentMemberMap rest diags
    end
  end.

(** The update payload built from the plan. *)
Definition updateReq_of (data : TeamResourceModel) : UpdateTeamRequest :=
  mkUpdateTeamRequest (ValueString (m_Name data))
                      (ValueString (m_Description data)).

Definition Update (client : AtlassianClient) (plan : Decoded)
    (priorState : TeamResourceModel) : Net T OpResponse :=
  let data := Data plan in
  let diags := GetDiags plan in
  if HasError diags then net_ret (mkOpResponse (Some priorState) diags)
  else
    r ←ₙ UpdateTeam client (ValueString (ID data)) (updateReq_of data) ;;
    match r with
    | Err err =>
      net_ret (mkOpResponse (Some priorState)
                 (AddError "Client Error"
                    ("Unable to update team, got error: " +:+ err) diags))
    | Ok team =>
      let data :=
        mkModel (ID data) (m_Name data) (m_Description data) (m_Type data)
                (m_Organization data) (m_Members data) (m_CreatedAt data)
                (StringValue (UpdatedAt team)) in
      match m_Members data with
      | SetValue newMembers =>
        cur ←ₙ GetTeamMembers client (ValueString (ID data)) ;;
        match cur with
        | Err err =>
          net_ret (mkOpResponse (Some priorState)
                     (AddError "Client Error"
                        ("Unable to get current team members: " +:+ err) diags))
        | Ok currentMembers =>
          let newMemberMap := newMemberMap_of newMembers in
          let currentMemberMap := currentMemberMap_of currentMembers in
          diags ←ₙ update_removeMembers client (ValueString (ID data))
                     newMemberMap (rangeOf G _ currentMemberMap) diags ;;
          diags ←ₙ update_addMembers client (ValueString (ID data))
                     currentMemberMap (rangeOf G _ newMemberMap) diags ;;
          net_ret (mkOpResponse (Some data) diags)
        end
      | _ => net_ret (mkOpResponse (Some data) diags)
      end
    end.

(** *** The rest of the legacy client and resource *)

Definition GetTeam (c : AtlassianClient) (teamID : string)
    : Net T (result Team) :=
  r ←ₙ makeRequest c "GET" (teamsPath c +:+ "/" +:+ teamID) None ;;
  match r with
  | Err e => net_ret (Err ("error getting team: " +:+ e))
  | Ok resp =>
    if decide (StatusCode resp = StatusNotFound)
    then net_ret (Err ("team not found: " +:+ teamID))
    else if decide (StatusCode resp ≠ StatusOK)
    then net_ret (Err ("API error getting team: " +:+ Status resp
                        +:+ " - " +:+ Body resp))
    else match decodeTeam G (Body resp) with
         | Err e => net_ret (Err ("error decoding response: " +:+ e))
         | Ok team => net_ret (Ok team)
         end
  end.

Definition DeleteTeam (c : AtlassianClient) (teamID : string)
    : Net T (option string) :=
  r ←ₙ makeRequest c "DELETE" (teamsPath c +:+ "/" +:+ teamID) None ;;
  match r with
  | Err e => net_ret (Some ("error deleting team: " +:+ e))
  | Ok resp =>
    if decide (StatusCode resp = StatusNotFound)
    then (* Team already doesn't exist, consider it successful *)
      net_ret None
    else if decide (StatusCode resp ≠ StatusNoContent
                    ∧ StatusCode resp ≠ StatusOK)
    then net_ret (Some ("API error deleting team: " +:+ Status resp
                         +:+ " - " +:+ Body resp))
    else net_ret None
  end.

(** The set element [Read] builds for a member the API reported. *)
Definition memberModel (member : TeamMember) : TeamMemberModel :=
  mkTeamMemberModel (StringValue (AccountID member))
    (StringValue (member_Email member)) (StringValue (Role member)).

(** [Read]: [resp.State] starts as the prior state.  The members are
    fetched under the identifier of the response, not under the stored
    one; building the object and set values from strings of the schema's
    types adds no diagnostic. *)
Definition Read (client : AtlassianClient) (prior : Decoded)
    : Net T OpResponse :=
  let data := Data prior in
  let diags := GetDiags prior in
  if HasError diags then net_ret (mkOpResponse (Some data) diags)
  else
    r ←ₙ GetTeam client (ValueString (ID data)) ;;
    match r with
    | Err err =>
      if decide (err = "team not found: " +:+ ValueString (ID data))
      then (* Team was deleted outside Terraform: RemoveResource *)
        net_ret (mkOpResponse None diags)
      else
        net_ret (mkOpResponse (Some data)
                   (AddError "Client Error"
                      ("Unable to read team, got error: " +:+ err) diags))
    | Ok team =>
      members ←ₙ GetTeamMembers client (team_ID team) ;;
      match members with
      | Err err =>
        let diags :=
          AddWarning "Members Read Error"
            ("Unable to read team members: " +:+ err) diags in
        net_ret (mkOpResponse
                   (Some (mkModel (ID data) (StringValue (Name team))
                            (StringValue (Description team))
                            (StringValue (Type_ team))
                            (StringValue (team_Organization team))
                            (m_Members data)
                            (StringValue (CreatedAt team))
                            (StringValue (UpdatedAt team))))
                   diags)
      | Ok members =>
        net_ret (mkOpResponse
                   (Some (mkModel (ID data) (StringValue (Name team))
                            (StringValue (Description team))
                            (StringValue (Type_ team))
                            (StringValue (team_Organization team))
                            (SetValue (memberModel <$> members))
                            (StringValue (CreatedAt team))
                            (StringValue (UpdatedAt team))))
                   diags)
      end
    end.

Definition Delete (client : AtlassianClient) (prior : Decoded)
    : Net T Diagnostics :=
  let data := Data prior in
  let diags := GetDiags prior in
  if HasError diags then net_ret diags
  else
    err ←ₙ DeleteTeam client (ValueString (ID data)) ;;
    match err with
    | Some e =>
      net_ret (AddError "Client Error"
                 ("Unable to delete team, got error: " +:+ e) diags)
    | None => net_ret diags
    end.

End WithExternals.
End Legacy.

(** ** Provider configuration

    Diagnostics of the provider carry the attribute they are about
    ([AddAttributeError] and [AddAttributeWarning] take a path).  The
    environment is the function [os.Getenv]: the empty string for a
    variable that is not set. *)

Definition PathDiagnostics := list (option string * Diagnostic).

Definition AddAttributeError (attribute summary detail : string)
    (d : PathDiagnostics) : PathDiagnostics :=
  d ++ [(Some attribute, mkDiagnostic SeverityError summary detail)].

Definition AddAttributeWarning (attribute summary detail : string)
    (d : PathDiagnostics) : PathDiagnostics :=
  d ++ [(Some attribute, mkDiagnostic SeverityWarning summary detail)].

Definition AddPathlessError (summary detail : string) (d : PathDiagnostics)
    : PathDiagnostics :=
  d ++ [(None, mkDiagnostic SeverityError summary detail)].

Definition HasPathError (d : PathDiagnostics) : bool :=
  existsb (λ pd, is_error pd.2) d.

Definition StringIsNull (v : TfString) : bool :=
  match v with StringNull => true | _ => false end.

Definition StringIsUnknown (v : TfString) : bool :=
  match v with StringUnknown => true | _ => false end.

(** The line feed of the client-creation message. *)
Definition newline : string := String (Ascii.ascii_of_nat 10) EmptyString.

(** *** The current provider: api_token, email, organization, site_id,
        org_id and base_url *)

Module Provider.

Record AtlassianProviderModel := mkProviderModel {
  ApiToken : TfString;
  Email : TfString;
  Organization : TfString;
  SiteId : TfString;
  OrgId : TfString;
  BaseUrl : TfString
}.

(** [req.Config.Get(ctx, &data)]: its diagnostics and the decoded model. *)
Record DecodedConfig := mkDecodedConfig {
  ConfigDiags : PathDiagnostics;
  ConfigData : AtlassianProviderModel
}.

Record ConfigureResponse := mkConfigureResponse {
  Diagnostics_ : PathDiagnostics;
  DataSourceData : option Client.AtlassianClient;
  ResourceData : option Client.AtlassianClient
}.

(** [NewAtlassianClient]: it builds the client and always returns a nil
    error. *)
Definition NewAtlassianClient (apiToken email organization siteId orgId baseURL : string)
    : result Client.AtlassianClient :=
  Ok (Client.mkClient apiToken email organization siteId orgId baseURL).

(** First block of [Configure]: one error per attribute whose value is
    unknown; base_url is not looked at. *)
Definition unknownChecks (data : AtlassianProviderModel) (diags : PathDiagnostics)
    : PathDiagnostics :=
  let diags :=
    if StringIsUnknown (ApiToken data) then
      AddAttributeError "api_token"
        "Unknown Atlassian API Token"
        "The provider cannot create the Atlassian API client as there is an unknown configuration value for the Atlassian API token. Either target apply the source of the value first, set the value statically in the configuration, or use the ATLASSIAN_API_TOKEN environment variable."
        diags
    else diags in
  let diags :=
    if StringIsUnknown (Email data) then
      AddAttributeError "email"
        "Unknown Atlassian Email"
        "The provider cannot create the Atlassian API client as there is an unknown configuration value for the Atlassian email. Either target apply the source of the value first, set the value statically in the configuration, or use the ATLASSIAN_EMAIL environment variable."
        diags
    else diags in
  let diags :=
    if StringIsUnknown (Organization data) then
      AddAttributeError "organization"
        "Unknown Atlassian Organization"
        "The provider cannot create the Atlassian API client as there is an unknown configuration value for the Atlassian organization. Either target apply the source of the value first, set the value statically in the configuration, or use the ATLASSIAN_ORGANIZATION environment variable."
        diags
    else diags in
  let diags :=
    if StringIsUnknown (SiteId data) then
      AddAttributeError "site_id"
        "Unknown Atlassian Site ID"
        "The provider cannot create the Atlassian API client as there is an unknown configuration value for the Atlassian site ID. Either target apply the source of the value first, set the value statically in the configuration, or use the ATLASSIAN_SITE_ID environment variable."
        diags
    else diags in
  if StringIsUnknown (OrgId data) then
    AddAttributeError "org_id"
        "Unknown Atlassian Org ID"
        "The provider cannot create the Atlassian API client as there is an unknown configuration value for the Atlassian org ID. Either target apply the source of the value first, set the value statically in the configuration, or use the ATLASSIAN_ORG_ID environment variable."
        diags
  else diags.

(** Third block of [Configure]: the resolved values that must not be
    empty, and the warning about the organization identifiers. *)
Definition missingChecks (apiToken organization orgId : string)
    (diags : PathDiagnostics) : PathDiagnostics :=
  let diags :=
    if decide (apiToken = EmptyString) then
      AddAttributeError "api_token"
        "Missing Atlassian API Token"
        "The provider cannot create the Atlassian API client as there is a missing or empty value for the Atlassian API token. Set the api_token value in the configuration or use the ATLASSIAN_API_TOKEN environment variable. If either is already set, ensure the value is not empty. For Teams API, use an Atlassian Admin API token."
        diags
    else diags in
  let diags :=
    if decide (orgId = EmptyString) then
      AddAttributeError "org_id"
        "Missing Atlassian Organization ID"
        "The provider cannot create the Atlassian API client as there is a missing or empty value for the Atlassian organization ID. Set the org_id value in the configuration or use the ATLASSIAN_ORG_ID environment variable. If either is already set, ensure the value is not empty. This is required for Teams API."
        diags
    else diags in
  if decide (organization = EmptyString ∧ orgId = EmptyString) then
    AddAttributeWarning "org_id"
        "Missing Organization Identifier"
        "Neither organization nor org_id is set. Some APIs may not work correctly. For Teams API, org_id is required."
        diags
  else diags.

Definition Configure (getenv : string → string) (config : DecodedConfig)
    : ConfigureResponse :=
  let data := ConfigData config in
  let diags := ConfigDiags config in
  if HasPathError diags then mkConfigureResponse diags None None
  else
    let diags := unknownChecks data diags in
    if HasPathError diags then mkConfigureResponse diags None None
    else
      (* Default values to environment variables, but override with the
         configuration value if set. *)
      let apiToken := getenv "ATLASSIAN_API_TOKEN" in
      let email := getenv "ATLASSIAN_EMAIL" in
      let organization := getenv "ATLASSIAN_ORGANIZATION" in
      let siteId := getenv "ATLASSIAN_SITE_ID" in
      let orgId := getenv "ATLASSIAN_ORG_ID" in
      let baseUrl := getenv "ATLASSIAN_BASE_URL" in
      let apiToken :=
        if negb (StringIsNull (ApiToken data)) then ValueString (ApiToken data)
        else apiToken in
      let email :=
        if negb (StringIsNull (Email data)) then ValueString (Email data)
        else email in
      let organization :=
        if negb (StringIsNull (Organization data))
        then ValueString (Organization data) else organization in
      let siteId :=
        if negb (StringIsNull (SiteId data)) then ValueString (SiteId data)
        else siteId in
      let orgId :=
        if negb (StringIsNull (OrgId data)) then ValueString (OrgId data)
        else orgId in
      let baseUrl :=
        if negb (StringIsNull (BaseUrl data)) then ValueString (BaseUrl data)
        else baseUrl in
      let diags := missingChecks apiToken organization orgId diags in
      let baseUrl :=
        if decide (baseUrl = EmptyString) then "https://api.atlassian.com"
        else baseUrl in
      if HasPathError diags then mkConfigureResponse diags None None
      else
        match NewAtlassianClient apiToken email organization siteId orgId baseUrl with
        | Err err =>
          mkConfigureResponse
            (AddPathlessError "Unable to Create Atlassian API Client"
               ("An unexpected error occurred when creating the Atlassian API client. If the error is not clear, please contact the provider developers."
                +:+ newline +:+ newline +:+ "Atlassian Client Error: " +:+ err)
               diags)
            None None
        | Ok client => mkConfigureResponse diags (Some client) (Some client)
        end.

End Provider.

(** *** The legacy provider (provider.go): api_token, email, organization
        and base_url *)

Module LegacyProvider.

Record AtlassianProviderModel := mkProviderModel {
  ApiToken : TfString;
  Email : TfString;
  Organization : TfString;
  BaseUrl : TfString
}.

Record DecodedConfig := mkDecodedConfig {
  ConfigDiags : PathDiagnostics;
  ConfigData : AtlassianProviderModel
}.

Record ConfigureResponse := mkConfigureResponse {
  Diagnostics_ : PathDiagnostics;
  DataSourceData : option Legacy.AtlassianClient;
  ResourceData : option Legacy.AtlassianClient
}.

Definition NewAtlassianClient (apiToken email organization baseURL : string)
    : result Legacy.AtlassianClient :=
  Ok (Legacy.mkClient apiToken email organization baseURL).

Definition unknownChecks (data : AtlassianProviderModel) (diags : PathDiagnostics)
    : PathDiagnostics :=
  let diags :=
    if StringIsUnknown (ApiToken data) then
      AddAttributeError "api_token"
        "Unknown Atlassian API Token"
        "The provider cannot create the Atlassian API client as there is an unknown configuration value for the Atlassian API token. Either target apply the source of the value first, set the value statically in the configuration, or use the ATLASSIAN_API_TOKEN environment variable."
        diags
    else diags in
  let diags :=
    if StringIsUnknown (Email data) then
      AddAttributeError "email"
        "Unknown Atlassian Email"
        "The provider cannot create the Atlassian API client as there is an unknown configuration value for the Atlassian email. Either target apply the source of the value first, set the value statically in the configuration, or use the ATLASSIAN_EMAIL environment variable."
        diags
    else diags in
  if StringIsUnknown (Organization data) then
    AddAttributeError "organization"
        "Unknown Atlassian Organization"
        "The provider cannot create the Atlassian API client as there is an unknown configuration value for the Atlassian organization. Either target apply the source of the value first, set the value statically in the configuration, or use the ATLASSIAN_ORGANIZATION environment variable."
        diags
  else diags.

Definition missingChecks (apiToken email organization : string)
    (diags : PathDiagnostics) : PathDiagnostics :=
  let diags :=
    if decide (apiToken = EmptyString) then
      AddAttributeError "api_token"
        "Missing Atlassian API Token"
        "The provider cannot create the Atlassian API client as there is a missing or empty value for the Atlassian API token. Set the api_token value in the configuration or use the ATLASSIAN_API_TOKEN environment variable. If either is already set, ensure the value is not empty."
        diags
    else diags in
  let diags :=
    if decide (email = EmptyString) then
      AddAttributeError "email"
        "Missing Atlassian Email"
        "The provider cannot create the Atlassian API client as there is a missing or empty value for the Atlassian email. Set the email value in the configuration or use the ATLASSIAN_EMAIL environment variable. If either is already set, ensure the value is not empty."
        diags
    else diags in
  if decide (organization = EmptyString) then
    AddAttributeError "organization"
        "Missing Atlassian Organization"
        "The provider cannot create the Atlassian API client as there is a missing or empty value for the Atlassian organization. Set the organization value in the configuration or use the ATLASSIAN_ORGANIZATION environment variable. If either is already set, ensure the value is not empty."
        diags
  else diags.

Definition Configure (getenv : string → string) (config : DecodedConfig)
    : ConfigureResponse :=
  let data := ConfigData config in
  let diags := ConfigDiags config in
  if HasPathError diags then mkConfigureResponse diags None None
  else
    let diags := unknownChecks data diags in
    if HasPathError diags then mkConfigureResponse diags None None
    else
      let apiToken := getenv "ATLASSIAN_API_TOKEN" in
      let email := getenv "ATLASSIAN_EMAIL" in
      let organization := getenv "ATLASSIAN_ORGANIZATION" in
      let baseUrl := getenv "ATLASSIAN_BASE_URL" in
      let apiToken :=
        if negb (StringIsNull (ApiToken data)) then ValueString (ApiToken data)
        else apiToken in
      let email :=
        if negb (StringIsNull (Email data)) then ValueString (Email data)
        else email in
      let organization :=
        if negb (StringIsNull (Organization data))
        then ValueString (Organization data) else organization in
      let baseUrl :=
        if negb (StringIsNull (BaseUrl data)) then ValueString (BaseUrl data)
        else baseUrl in
      let diags := missingChecks apiToken email organization diags in
      let baseUrl :=
        if decide (baseUrl = EmptyString) then "https://api.atlassian.com"
        else baseUrl in
      if HasPathError diags then mkConfigureResponse diags None None
      else
        match NewAtlassianClient apiToken email organization baseUrl with
        | Err err =>
          mkConfigureResponse
            (AddPathlessError "Unable to Create Atlassian API Client"
               ("An unexpected error occurred when creating the Atlassian API client. If the error is not clear, please contact the provider developers."
                +:+ newline +:+ newline +:+ "Atlassian Client Error: " +:+ err)
               diags)
            None None
        | Ok client => mkConfigureResponse diags (Some client) (Some client)
        end.

End LegacyProvider.


(** ** Vocabulary of the properties: the requests the operations build,
       and what a transport answered *)

Section ClientRequests.
Context (T : Transport).
Import Client.

(** The request [GetTeam] builds for a team identifier. *)
Definition getTeam_request (c : AtlassianClient) (teamID : string) : Request :=
  buildRequest c "GET" (getTeamAPIPath c ("/teams/" +:+ teamID)) None None.

(** The transport answered the Get call with HTTP 404. *)
Definition get_answers_404 (c : AtlassianClient) (teamID : string)
    (s : NetState T) : Prop :=
  newRequestErr T "GET" (URL (getTeam_request c teamID)) = None
  ∧ ∃ resp w', roundTrip T (getTeam_request c teamID) (world s) = (inr resp, w')
               ∧ StatusCode resp = StatusNotFound.

Definition deleteTeam_request (c : AtlassianClient) (teamID : string) : Request :=
  buildRequest c "DELETE" (getTeamAPIPath c ("/teams/" +:+ teamID)) None None.

Definition createTeam_request (c : AtlassianClient) (team : CreateTeamRequest)
    : Request :=
  buildRequest c "POST" (getTeamAPIPath c "/teams/")
    (Some (marshal_CreateTeamRequest team)) None.

Definition updateTeam_request (c : AtlassianClient) (teamID : string)
    (updateReq : UpdateTeamRequest) : Request :=
  buildRequest c "PATCH" (getTeamAPIPath c ("/teams/" +:+ teamID))
    (Some (marshal_UpdateTeamRequest updateReq)) None.

Definition archiveTeams_request (c : AtlassianClient) (orgID : string)
    (teamIDs : list string) : Request :=
  buildRequest c "POST" ("/public/teams/v1/org/" +:+ orgID +:+ "/teams/archive")
    (Some (marshal_BulkOperationRequest teamIDs)) None.

Definition unarchiveTeams_request (c : AtlassianClient) (orgID : string)
    (teamIDs : list string) : Request :=
  buildRequest c "POST" ("/public/teams/v1/org/" +:+ orgID +:+ "/teams/unarchive")
    (Some (marshal_BulkOperationRequest teamIDs)) None.

Definition addTeamMembers_request (c : AtlassianClient) (orgID teamID : string)
    (members : list TeamMember) : Request :=
  buildRequest c "POST"
    ("/public/teams/v1/org/" +:+ orgID +:+ "/teams/" +:+ teamID +:+ "/members/add")
    (Some (marshal_MembershipPayload members)) acceptAny.

Definition removeTeamMembers_request (c : AtlassianClient) (orgID teamID : string)
    (members : list TeamMember) : Request :=
  buildRequest c "POST"
    ("/public/teams/v1/org/" +:+ orgID +:+ "/teams/" +:+ teamID +:+ "/members/remove")
    (Some (marshal_MembershipPayload members)) acceptAny.

Definition getTeams_request (c : AtlassianClient) (orgID siteId : string)
    (size : Z) (cursor : string) : Request :=
  buildRequest c "GET" (getTeams_path orgID siteId size cursor) None None.

Definition fetchTeamMembers_request (c : AtlassianClient)
    (orgID teamID siteId after : string) (first : Z) : Request :=
  buildRequest c "POST"
    (let path := "/public/teams/v1/org/" +:+ orgID +:+ "/teams/" +:+ teamID
                 +:+ "/members" in
     if decide (siteId ≠ EmptyString) then path +:+ "?siteId=" +:+ siteId else path)
    (Some (marshal_FetchPayload (fetch_payload after first))) acceptAny.


(** The transport accepts and answers [req] with [resp] in state [s]. *)
Definition answers (req : Request) (s : NetState T) (resp : Response)
    (w' : World T) : Prop :=
  newRequestErr T (Method req) (URL req) = None
  ∧ roundTrip T req (world s) = (inr resp, w').

End ClientRequests.

(** A diagnostic of the member loops: a warning with the given summary. *)
Definition member_warning (what : string) (d : Diagnostic) : Prop :=
  severity d = SeverityWarning ∧ summary d = what.

(** *** Member calls in a request log *)

(** [suffix] ends [s]. *)
Definition has_suffix (suffix s : string) : bool :=
  let n := String.length s in
  let k := String.length suffix in
  bool_decide (k ≤ n)%nat
  && bool_decide (String.substring (n - k) k s = suffix).

(** The account identifiers carried by a membership payload
    ([{"members": [{"accountId": ...}, ...]}]). *)
Definition payload_accounts (body : option json) : list string :=
  match body with
  | Some j =>
    match json_field "members" j with
    | Some (JArr items) =>
      omap (λ item, match json_field "accountId" item with
                    | Some (JStr a) => Some a
                    | _ => None
                    end) items
    | _ => []
    end
  | None => []
  end.

(** The add-members calls and the remove-members calls found in a log of
    requests, recognised by their endpoint. *)
Definition add_member_calls (log : list Request) : list Request :=
  List.filter (λ r, has_suffix "/members/add" (URL r)) log.

Definition remove_member_calls (log : list Request) : list Request :=
  List.filter (λ r, has_suffix "/members/remove" (URL r)) log.

(** The accounts in the payloads of these calls. *)
Definition added_accounts (log : list Request) : list string :=
  concat (payload_accounts ∘ ReqBody <$> add_member_calls log).

Definition removed_accounts (log : list Request) : list string :=
  concat (payload_accounts ∘ ReqBody <$> remove_member_calls log).

(** The account identifiers of a membership attribute of the current
    resource model. *)
Definition model_accounts (members : TfSet Resource.TeamMemberModel)
    : gset string :=
  match members with
  | SetValue elems =>
    list_to_set ((λ m, ValueString (Resource.AccountID m)) <$> elems)
  | _ => ∅
  end.

(** *** The legacy requests, and the two member sets of an update *)

Section LegacyRequests.
Context (G : Legacy.Runtime).
Import Legacy.

Definition legacy_createTeam_request (c : AtlassianClient)
    (team : CreateTeamRequest) : Request :=
  buildRequest G c "POST" (teamsPath c) (Some (marshal_CreateTeamRequest team)).

Definition addTeamMember_request (c : AtlassianClient) (teamID : string)
    (member : TeamMember) : Request :=
  buildRequest G c "POST" (teamsPath c +:+ "/" +:+ teamID +:+ "/members")
    (Some (marshal_TeamMember member)).

Definition removeTeamMember_request (c : AtlassianClient)
    (teamID accountID : string) : Request :=
  buildRequest G c "DELETE"
    (teamsPath c +:+ "/" +:+ teamID +:+ "/members/" +:+ accountID) None.

(** D: the account identifiers of the declared members. *)
Definition declared_accounts (newMembers : list TeamMemberModel) : gset string :=
  list_to_set ((λ member, ValueString (m_AccountID member)) <$> newMembers).

(** R: the account identifiers of the members the API reported. *)
Definition remote_accounts (currentMembers : list TeamMember) : gset string :=
  list_to_set (AccountID <$> currentMembers).

End LegacyRequests.

(** ** Concrete transports, decoders and inputs *)

Module Samples.

(** A transport that answers every request with the same response. *)
Definition answering (resp : Response) : Transport :=
  mkTransport unit (λ _ w, (inr resp, w)) (λ _ _, None).

(** A transport that plays a script: one scripted answer per request,
    then a refused connection. *)
Definition scripted : Transport :=
  mkTransport (list (string + Response))
    (λ _ w, match w with
            | [] => (inl "connection refused", [])
            | r :: rest => (r, rest)
            end)
    (λ _ _, None).

Definition start (T : Transport) (w : World T) : NetState T := mkNetState w [].

(** Nothing sent yet, against a transport answering [resp]. *)
Definition fresh (resp : Response) : NetState (answering resp) :=
  start (answering resp) ().

(** Nothing sent yet, against a transport playing [script]. *)
Definition play (script : list (string + Response)) : NetState scripted :=
  start scripted script.

Definition notFound : Response := mkResponse 404 "404 Not Found" EmptyString.
Definition gone : Response := mkResponse 410 "410 Gone" EmptyString.
Definition noContent : Response := mkResponse 204 "204 No Content" EmptyString.
Definition created (body : string) : Response := mkResponse 201 "201 Created" body.
Definition ok (body : string) : Response := mkResponse 200 "200 OK" body.

Definition client : Client.AtlassianClient :=
  Client.mkClient "token" "admin@example.com" EmptyString EmptyString "org-1"
                  "https://api.atlassian.com".

Definition teamT1 : Client.Team :=
  Client.mkTeam "T1" "Dev Team" EmptyString "OPEN" "org-1" "creator-1" "ACTIVE" None None.

(** Two teams succeeded, one failed with a coded error. *)
Definition partialBulk : Client.PublicApiBulkOperationResponse :=
  Client.mkBulkResponse
    [Client.mkBulkError "TEAM_NOT_FOUND" "team does not exist" "T3"]
    ["T1"; "T2"].

Definition partialAdd : Client.PublicApiMembershipAddResponse :=
  Client.mkAddResponse
    [Client.mkCodedError "C" "USER_NOT_FOUND" "account does not exist"]
    [Client.mkTeamMember "A"; Client.mkTeamMember "B"].

(** Decoders that recognise three bodies. *)
Definition codec : Client.Codec :=
  Client.mkCodec
    (λ body, if decide (body = "team T1") then Ok teamT1
             else Err "unexpected end of JSON input")
    (λ body, if decide (body = "2 ok, 1 error") then Ok partialBulk
             else Err "unexpected end of JSON input")
    (λ _, Err "unexpected end of JSON input")
    (λ _, Err "unexpected end of JSON input")
    (λ body, if decide (body = "2 ok, 1 error") then Ok partialAdd
             else Err "unexpected end of JSON input")
    (λ _, Err "unexpected end of JSON input").

Definition member (a : string) : Resource.TeamMemberModel :=
  Resource.mkTeamMemberModel (StringValue a).

(** The tracked state of team T1 with remote members A and C. *)
Definition stateT1 : Resource.TeamResourceModel :=
  Resource.mkModel (StringValue "T1") (StringValue "Dev Team") (StringValue EmptyString)
    (StringValue "OPEN") StringNull (StringValue "org-1")
    (StringValue "creator-1") (StringValue "ACTIVE")
    (SetValue [member "A"; member "C"]).

(** The plan that renames T1 and declares members A and B. *)
Definition planT1 : Resource.TeamResourceModel :=
  Resource.mkModel (StringValue "T1") (StringValue "Dev Team v2") (StringValue EmptyString)
    (StringValue "OPEN") StringNull (StringValue "org-1")
    (StringValue "creator-1") (StringValue "ACTIVE")
    (SetValue [member "A"; member "B"]).

(** A plan for a new team that declares the members A and B. *)
Definition planNew : Resource.TeamResourceModel :=
  Resource.mkModel StringUnknown (StringValue "Dev Team") (StringValue EmptyString)
    (StringValue "OPEN") StringNull StringUnknown StringUnknown StringUnknown
    (SetValue [member "A"; member "B"]).

(** A plan whose display name is empty and whose description has 361
    characters. *)
Definition planOutOfRange : Resource.TeamResourceModel :=
  Resource.mkModel StringUnknown (StringValue EmptyString)
    (StringValue (String.concat EmptyString (replicate 361 "x")))
    (StringValue "OPEN") StringNull StringUnknown StringUnknown StringUnknown
    SetNull.

(** *** Legacy samples *)

Definition legacyClient : Legacy.AtlassianClient :=
  Legacy.mkClient "token" "admin@example.com" "acme" "https://api.atlassian.com".

Definition legacyTeam : Legacy.Team :=
  Legacy.mkTeam "T1" "Dev Team" EmptyString "development" "acme" None
    "2024-01-01T00:00:00Z" "2024-01-02T00:00:00Z".

(** A member as the legacy API reports it, without email and role. *)
Definition remoteMember (a : string) : Legacy.TeamMember :=
  Legacy.mkTeamMember a EmptyString EmptyString.

(** A runtime whose [range] visits the entries in the order of
    [map_to_list]; the Authorization value is written unencoded. *)
Definition runtime : Legacy.Runtime :=
  Legacy.mkRuntime
    (λ body, if decide (body = "team T1") then Ok legacyTeam
             else Err "unexpected end of JSON input")
    (λ body, if decide (body = "members A, C")
             then Ok [remoteMember "A"; remoteMember "C"]
             else Err "unexpected end of JSON input")
    (λ email token, "Basic " +:+ email +:+ ":" +:+ token)
    (λ A m, map_to_list m)
    (λ A m, reflexivity (map_to_list m)).


(** The API updates the team, reports the members A and C, removes one
    member and adds one. *)
Definition updateScript : list (string + Response) :=
  [inr (ok "team T1"); inr (ok "members A, C"); inr noContent; inr (created EmptyString)].

Definition legacyMember (a : string) : Legacy.TeamMemberModel :=
  Legacy.mkTeamMemberModel (StringValue a) StringNull StringNull.

(** A legacy plan for team T1 declaring the members A and B. *)
Definition legacyPlan : Legacy.TeamResourceModel :=
  Legacy.mkModel (StringValue "T1") (StringValue "Dev Team") (StringValue EmptyString)
    (StringValue "development") StringNull
    (SetValue [legacyMember "A"; legacyMember "B"]) StringUnknown StringUnknown.

End Samples.

(** ** Further vocabulary *)

Section MoreClientVocabulary.
Context (T : Transport).
Import Client.

(** The log of [s'] is the log of [s] with at most one request more. *)
Definition at_most_one_more (s s' : NetState T) : Prop :=
  sent s' = sent s ∨ ∃ req, sent s' = sent s ++ [req].

Definition restoreTeam_request (c : AtlassianClient) (orgID teamID : string)
    : Request :=
  buildRequest c "POST"
    ("/public/teams/v1/org/" +:+ orgID +:+ "/teams/" +:+ teamID +:+ "/restore")
    None None.


End MoreClientVocabulary.

(** What an operation of the current resource may add to the diagnostics
    it was given: nothing, or one "Client Error" error. *)
Definition adds_at_most_one_client_error (given result : Diagnostics) : Prop :=
  result = given
  ∨ ∃ detail, result = given ++ [mkDiagnostic SeverityError "Client Error" detail].

(** The value a provider setting resolves to: the configured value unless
    the attribute is null, in which case the environment variable is
    used.  An unknown value reads as the empty string. *)
Definition setting (configured : TfString) (fromEnv : string) : string :=
  match configured with
  | StringNull => fromEnv
  | _ => ValueString configured
  end.

(** The base URL a provider setting resolves to. *)
Definition base_url_setting (configured : TfString) (fromEnv : string) : string :=
  if decide (setting configured fromEnv = EmptyString)
  then "https://api.atlassian.com"
  else setting configured fromEnv.

(** What the current provider needs to build a client: a configuration
    decoded without error, no unknown value among api_token, email,
    organization, site_id and org_id, and a token and an organization id
    that resolve to something. *)
Definition configurable (getenv : string → string)
    (config : Provider.DecodedConfig) : Prop :=
  let data := Provider.ConfigData config in
  HasPathError (Provider.ConfigDiags config) = false
  ∧ Provider.ApiToken data ≠ StringUnknown
  ∧ Provider.Email data ≠ StringUnknown
  ∧ Provider.Organization data ≠ StringUnknown
  ∧ Provider.SiteId data ≠ StringUnknown
  ∧ Provider.OrgId data ≠ StringUnknown
  ∧ setting (Provider.ApiToken data) (getenv "ATLASSIAN_API_TOKEN") ≠ EmptyString
  ∧ setting (Provider.OrgId data) (getenv "ATLASSIAN_ORG_ID") ≠ EmptyString.

(** The client the current provider builds from configuration and
    environment. *)
Definition configured_client (getenv : string → string)
    (data : Provider.AtlassianProviderModel) : Client.AtlassianClient :=
  Client.mkClient
    (setting (Provider.ApiToken data) (getenv "ATLASSIAN_API_TOKEN"))
    (setting (Provider.Email data) (getenv "ATLASSIAN_EMAIL"))
    (setting (Provider.Organization data) (getenv "ATLASSIAN_ORGANIZATION"))
    (setting (Provider.SiteId data) (getenv "ATLASSIAN_SITE_ID"))
    (setting (Provider.OrgId data) (getenv "ATLASSIAN_ORG_ID"))
    (base_url_setting (Provider.BaseUrl data) (getenv "ATLASSIAN_BASE_URL")).

(** What the legacy provider needs: no unknown value among api_token,
    email and organization, and all three resolving to something. *)
Definition legacy_configurable (getenv : string → string)
    (config : LegacyProvider.DecodedConfig) : Prop :=
  let data := LegacyProvider.ConfigData config in
  HasPathError (LegacyProvider.ConfigDiags config) = false
  ∧ LegacyProvider.ApiToken data ≠ StringUnknown
  ∧ LegacyProvider.Email data ≠ StringUnknown
  ∧ LegacyProvider.Organization data ≠ StringUnknown
  ∧ setting (LegacyProvider.ApiToken data) (getenv "ATLASSIAN_API_TOKEN") ≠ EmptyString
  ∧ setting (LegacyProvider.Email data) (getenv "ATLASSIAN_EMAIL") ≠ EmptyString
  ∧ setting (LegacyProvider.Organization data) (getenv "ATLASSIAN_ORGANIZATION")
    ≠ EmptyString.

Definition legacy_configured_client (getenv : string → string)
    (data : LegacyProvider.AtlassianProviderModel) : Legacy.AtlassianClient :=
  Legacy.mkClient
    (setting (LegacyProvider.ApiToken data) (getenv "ATLASSIAN_API_TOKEN"))
    (setting (LegacyProvider.Email data) (getenv "ATLASSIAN_EMAIL"))
    (setting (LegacyProvider.Organization data) (getenv "ATLASSIAN_ORGANIZATION"))
    (base_url_setting (LegacyProvider.BaseUrl data) (getenv "ATLASSIAN_BASE_URL")).

Section MoreLegacyVocabulary.
Context (G : Legacy.Runtime).
Import Legacy.


Definition legacy_deleteTeam_request (c : AtlassianClient) (teamID : string)
    : Request :=
  buildRequest G c "DELETE" (teamsPath c +:+ "/" +:+ teamID) None.

End MoreLegacyVocabulary.


(** ** Further samples *)

Module Scenarios.

(** An environment that sets the token and the organization id. *)
Definition environment (name : string) : string :=
  if decide (name = "ATLASSIAN_API_TOKEN") then "env-token"
  else if decide (name = "ATLASSIAN_ORG_ID") then "org-1"
  else EmptyString.

(** A provider block that sets nothing. *)
Definition emptyConfig : Provider.DecodedConfig :=
  Provider.mkDecodedConfig []
    (Provider.mkProviderModel StringNull StringNull StringNull StringNull
       StringNull StringNull).

(** A provider block that sets the token and the organization id and
    whose base URL is not known yet. *)
Definition unknownUrlConfig : Provider.DecodedConfig :=
  Provider.mkDecodedConfig []
    (Provider.mkProviderModel (StringValue "token") StringNull StringNull
       StringNull (StringValue "org-9") StringUnknown).

(** An environment for the legacy provider: token, email, organization. *)
Definition legacyEnvironment (name : string) : string :=
  if decide (name = "ATLASSIAN_API_TOKEN") then "env-token"
  else if decide (name = "ATLASSIAN_EMAIL") then "admin@example.com"
  else if decide (name = "ATLASSIAN_ORGANIZATION") then "acme"
  else EmptyString.

(** A legacy provider block that sets the organization only. *)
Definition legacyConfig : LegacyProvider.DecodedConfig :=
  LegacyProvider.mkDecodedConfig []
    (LegacyProvider.mkProviderModel StringNull StringNull (StringValue "globex")
       StringNull).

(** A plan that could not be decoded. *)
Definition brokenPlan : Resource.Decoded :=
  Resource.mkDecoded
    [mkDiagnostic SeverityError "Value Conversion Error" "unhandled null value"]
    Samples.planNew.

(** A declared legacy member with a role. *)
Definition memberWithRole (a role : string) : Legacy.TeamMemberModel :=
  Legacy.mkTeamMemberModel (StringValue a) StringNull (StringValue role).


End Scenarios.

(** What the framework passes to the resource as provider data: the
    [ResourceData] the provider's [Configure] left in its response. *)
Definition providerData_of (resourceData : option Client.AtlassianClient)
    : Resource.ProviderData :=
  match resourceData with
  | Some client => Resource.ProviderDataClient client
  | None => Resource.ProviderDataNil
  end.

(** * Properties *)

(** ** Worked inputs *)

Example getTeams_path_large_size :
  Client.getTeams_path "org-1" EmptyString 1000 EmptyString
  = "/public/teams/v1/org/org-1/teams?size=300".
Proof. vm_compute. reflexivity. Qed.

Example getTeams_path_all_parameters :
  Client.getTeams_path "org-1" "site-9" 25 "abc"
  = "/public/teams/v1/org/org-1/teams?siteId=site-9&size=25&cursor=abc".
Proof. vm_compute. reflexivity. Qed.

Example getTeams_path_no_size :
  Client.getTeams_path "org-1" EmptyString 0 EmptyString
  = "/public/teams/v1/org/org-1/teams".
Proof. vm_compute. reflexivity. Qed.

Example fetch_payload_in_range :
  Client.marshal_FetchPayload (Client.fetch_payload "cur" 20)
  = JObj [("after", JStr "cur"); ("first", JNum 20)].
Proof. vm_compute. reflexivity. Qed.

Example fetch_payload_above_50 :
  Client.marshal_FetchPayload (Client.fetch_payload EmptyString 60) = JObj [].
Proof. vm_compute. reflexivity. Qed.

Example update_payload_omits_empty_description :
  Client.marshal_UpdateTeamRequest (Resource.updateReq_of Samples.planT1)
  = JObj [("displayName", JStr "Dev Team v2")].
Proof. vm_compute. reflexivity. Qed.

Example team_type_closed_is_rejected :
  HasError (Resource.OneOf Resource.team_type_values "team_type"
              (StringValue "CLOSED")) = true.
Proof. vm_compute. reflexivity. Qed.

(** Delete answered 204, then Delete again answered 404: no error either
    time. *)
Example delete_twice :
  let first := Resource.Delete Samples.scripted Samples.client
                 (Resource.mkDecoded [] Samples.stateT1)
                 (Samples.play [inr Samples.noContent; inr Samples.notFound]) in
  let second := Resource.Delete Samples.scripted Samples.client
                  (Resource.mkDecoded [] Samples.stateT1) first.2 in
  first.1 = [] ∧ second.1 = []
  ∧ sent second.2 = [deleteTeam_request Samples.client "T1";
                     deleteTeam_request Samples.client "T1"].
Proof. vm_compute. repeat split; reflexivity. Qed.

(** The legacy Update of T1 with declared members A and B while the API
    reports A and C: after the PUT and the GET of the members, C is
    removed and B is added. *)
Example legacy_update_removes_C_adds_B :
  drop 2 (sent (Legacy.Update Samples.scripted Samples.runtime Samples.legacyClient
                  (Legacy.mkDecoded [] Samples.legacyPlan) Samples.legacyPlan
                  (Samples.play Samples.updateScript)).2)
  = [removeTeamMember_request Samples.runtime Samples.legacyClient "T1" "C";
     addTeamMember_request Samples.runtime Samples.legacyClient "T1"
       (Samples.remoteMember "B")].
Proof. vm_compute. reflexivity. Qed.

(** Create answered 201 with team T1, then Read answered 404: the record
    has the identifier T1, and the Read drops the resource. *)
Example create_then_read_removed :
  let script := [inr (Samples.created "team T1"); inr Samples.notFound] in
  let created := Resource.Create Samples.scripted Samples.codec Samples.client
                   (Resource.mkDecoded [] Samples.planNew) (Samples.play script) in
  ∃ data,
    Resource.resp_State created.1 = Some data
    ∧ Resource.ID data = StringValue "T1"
    ∧ Resource.Read Samples.scripted Samples.codec Samples.client
        (Resource.mkDecoded [] data) created.2
      = (Resource.mkOpResponse None [],
         @mkNetState Samples.scripted []
           [createTeam_request Samples.client (Resource.createReq_of Samples.planNew);
            getTeam_request Samples.client "T1"]).
Proof.
  eexists. split; [vm_compute; reflexivity|].
  split; vm_compute; reflexivity.
Qed.

(** ** Error messages

    Messages are told apart by their literal prefixes. *)
Lemma append_head_neq (a b : Ascii.ascii) (s t x y : string) :
  a ≠ b → String a s +:+ x ≠ String b t +:+ y.
Proof. intros Hab Heq. injection Heq as Hhead _. exact (Hab Hhead). Qed.

Section ClientFacts.
Context (T : Transport) (D : Client.Codec).
Import Client.

(** A request that [http.NewRequest] refuses never reaches the network. *)
Lemma makeRequestWithHeaders_refused c method path body hs e s :
  newRequestErr T method (BaseURL c +:+ path) = Some e →
  makeRequestWithHeaders T c method path body hs s
  = (Err ("error creating request: " +:+ e), s).
Proof. intros H. unfold makeRequestWithHeaders. by rewrite H. Qed.

(** An accepted request is handed to the transport exactly once. *)
Lemma makeRequestWithHeaders_sent c method path body hs s :
  newRequestErr T method (BaseURL c +:+ path) = None →
  let req := buildRequest c method path body hs in
  makeRequestWithHeaders T c method path body hs s
  = (match (roundTrip T req (world s)).1 with
     | inl e => Err ("error making request: " +:+ e)
     | inr resp => Ok resp
     end,
     mkNetState (roundTrip T req (world s)).2 (sent s ++ [req])).
Proof.
  intros H req. unfold makeRequestWithHeaders, net_bind, Do. rewrite H.
  fold req. destruct (roundTrip T req (world s)) as [[e|resp] w']; done.
Qed.

(** [GetTeam] fails with the not-found message exactly when the
    transport answered 404. *)
Lemma GetTeam_not_found_iff c teamID s e s' :
  GetTeam T D c teamID s = (Err e, s') →
  e = "team not found: " +:+ teamID ↔ get_answers_404 T c teamID s.
Proof.
  unfold GetTeam, makeRequest, net_bind, get_answers_404. simpl.
  destruct (newRequestErr T "GET" (BaseURL c +:+ getTeamAPIPath c ("/teams/" +:+ teamID)))
    as [e0|] eqn:Hnew.
  - rewrite (makeRequestWithHeaders_refused _ _ _ _ _ e0) by done.
    unfold net_ret. intros [= <- <-]. split.
    + intros Heq. by apply append_head_neq in Heq.
    + intros [? _]. done.
  - rewrite makeRequestWithHeaders_sent by done. fold (getTeam_request c teamID).
    destruct (roundTrip T (getTeam_request c teamID) (world s)) as [[e0|resp] w'] eqn:Hrt;
      simpl.
    + unfold net_ret. intros [= <- <-]. split.
      * intros Heq. by apply append_head_neq in Heq.
      * intros [_ (resp & w'' & [=] & _)].
    + repeat case_decide; unfold net_ret.
      * intros [= <- <-]. split; [|done]. intros _. split; [done|]. eauto.
      * intros [= <- <-]. split.
        -- intros Heq. by apply append_head_neq in Heq.
        -- intros [_ (resp' & w'' & [= <- <-] & ?)]. done.
      * destruct (decodeTeam D (Body resp)) as [t|e0]; [done|].
        intros [= <- <-]. split.
        -- intros Heq. by apply append_head_neq in Heq.
        -- intros [_ (resp' & w'' & [= <- <-] & ?)]. done.
Qed.
End ClientFacts.

Section ResourceFacts.
Context (T : Transport) (D : Client.Codec).
Import Resource.

(** C2. Read of a stored team identifier: when the Get call reports the
    not-found condition (the transport answered HTTP 404), the resource
    is removed from the state and no diagnostic is added, so no error is
    reported; for every other failure of the Get call, Read adds an
    error diagnostic and leaves the prior state in place. *)
Theorem Read_not_found_removes client prior s e s' :
  HasError (GetDiags prior) = false →
  Client.GetTeam T D client (ValueString (ID (Data prior))) s = (Err e, s') →
  (get_answers_404 T client (ValueString (ID (Data prior))) s →
     Read T D client prior s = (mkOpResponse None (GetDiags prior), s')
     ∧ HasError (resp_Diagnostics (Read T D client prior s).1) = false)
  ∧ (¬ get_answers_404 T client (ValueString (ID (Data prior))) s →
     Read T D client prior s
     = (mkOpResponse (Some (Data prior))
          (AddError "Client Error" ("Unable to read team, got error: " +:+ e)
             (GetDiags prior)), s')
     ∧ HasError (resp_Diagnostics (Read T D client prior s).1) = true).
Proof.
  intros Hd Hget.
  pose proof (GetTeam_not_found_iff T D _ _ _ _ _ Hget) as Hiff.
  unfold Read, net_bind. rewrite Hd, Hget. split; intros H404.
  - apply Hiff in H404. rewrite decide_True by done. simpl. done.
  - rewrite decide_False by (by rewrite Hiff). simpl. split; [done|].
    unfold AddError, HasError. rewrite existsb_app. simpl.
    by rewrite orb_true_r.
Qed.
End ResourceFacts.

Lemma Read_not_found_removes_witness :
  Resource.Read (Samples.answering Samples.notFound) Samples.codec Samples.client
    (Resource.mkDecoded [] Samples.stateT1) (Samples.fresh Samples.notFound)
  = (Resource.mkOpResponse None [],
     @mkNetState (Samples.answering Samples.notFound) ()
       [getTeam_request Samples.client "T1"]).
Proof.
  refine (proj1 (proj1 (Read_not_found_removes (Samples.answering Samples.notFound)
            Samples.codec Samples.client (Resource.mkDecoded [] Samples.stateT1)
            (Samples.fresh Samples.notFound) "team not found: T1" _ _ _) _)).
  - reflexivity.
  - vm_compute. reflexivity.
  - split; [reflexivity|]. exists Samples.notFound, (). split; reflexivity.
Defined.

Section ClientStatus.
Context (T : Transport) (D : Client.Codec).
Import Client.

(** An accepted and answered request: the response comes back and the
    request is logged once. *)
Lemma makeRequestWithHeaders_answers c method path body hs s resp w' :
  answers T (buildRequest c method path body hs) s resp w' →
  makeRequestWithHeaders T c method path body hs s
  = (Ok resp, mkNetState w' (sent s ++ [buildRequest c method path body hs])).
Proof.
  intros [Hnew Hrt]. rewrite makeRequestWithHeaders_sent by exact Hnew.
  simpl. by rewrite Hrt.
Qed.

(** [DeleteTeam] once the transport has answered: nil for 404, 204 and
    200, an error carrying status and body otherwise. *)
Lemma DeleteTeam_answered c teamID s resp w' :
  answers T (deleteTeam_request c teamID) s resp w' →
  DeleteTeam T c teamID s
  = (if decide (StatusCode resp = 404 ∨ StatusCode resp = 204 ∨ StatusCode resp = 200)
     then None
     else Some ("API error deleting team: " +:+ Status resp +:+ " - " +:+ Body resp),
     mkNetState w' (sent s ++ [deleteTeam_request c teamID])).
Proof.
  intros Hans. unfold DeleteTeam, makeRequest, net_bind.
  rewrite (makeRequestWithHeaders_answers _ _ _ _ _ _ _ _ Hans).
  unfold StatusNotFound, StatusNoContent, StatusOK, net_ret.
  repeat case_decide; try done; exfalso; lia.
Qed.
End ClientStatus.

Section DeleteFacts.
Context (T : Transport).
Import Resource.

(** C3, as the code has it. For every team identifier, once the remote API
    has answered the DELETE request, Delete reports no error exactly when
    the status is 200, 204 or 404 (so deleting an already-deleted team
    again, answered 404, is not an error); every other status, 410 Gone
    included, yields an error diagnostic. *)
Theorem Delete_succeeds_iff_200_204_404 client prior s resp w' :
  HasError (GetDiags prior) = false →
  answers T (deleteTeam_request client (ValueString (ID (Data prior)))) s resp w' →
  (HasError (Delete T client prior s).1 = false
   ↔ StatusCode resp = 200 ∨ StatusCode resp = 204 ∨ StatusCode resp = 404)
  ∧ (StatusCode resp = StatusGone → HasError (Delete T client prior s).1 = true)
  ∧ sent (Delete T client prior s).2
    = sent s ++ [deleteTeam_request client (ValueString (ID (Data prior)))].
Proof.
  intros Hd Hans. unfold Delete, net_bind. rewrite Hd.
  rewrite (DeleteTeam_answered _ _ _ _ _ _ Hans).
  assert (Herr : ∀ e, HasError (AddError "Client Error" e (GetDiags prior)) = true).
  { intros e. unfold AddError, HasError. rewrite existsb_app. simpl.
    by rewrite orb_true_r. }
  unfold StatusGone. case_decide as Hst; simpl.
  - split; [|split; [|done]].
    + split; [intros _; tauto | by intros _].
    + intros ?. exfalso. lia.
  - rewrite Herr. split; [|split; [done|done]].
    split; [done | intros ?; exfalso; tauto].
Qed.
End DeleteFacts.

Lemma Delete_succeeds_iff_200_204_404_witness :
  HasError (Resource.Delete (Samples.answering Samples.notFound) Samples.client
              (Resource.mkDecoded [] Samples.stateT1) (Samples.fresh Samples.notFound)).1
  = false.
Proof.
  refine (proj2 (proj1 (Delete_succeeds_iff_200_204_404
            (Samples.answering Samples.notFound) Samples.client
            (Resource.mkDecoded [] Samples.stateT1) (Samples.fresh Samples.notFound)
            Samples.notFound () _ _)) _).
  - reflexivity.
  - split; reflexivity.
  - right. right. reflexivity.
Defined.

(** The remote API answers the DELETE with 410 Gone: Delete reports an
    error, where the specification promised success. *)
Lemma Delete_gone_reports_error :
  StatusCode Samples.gone = StatusGone
  ∧ (Resource.Delete (Samples.answering Samples.gone) Samples.client
       (Resource.mkDecoded [] Samples.stateT1) (Samples.fresh Samples.gone)).1
    = [mkDiagnostic SeverityError "Client Error"
         "Unable to delete team, got error: API error deleting team: 410 Gone - "]
  ∧ HasError (Resource.Delete (Samples.answering Samples.gone) Samples.client
                (Resource.mkDecoded [] Samples.stateT1) (Samples.fresh Samples.gone)).1
    ≠ false.
Proof. split; [reflexivity|]. split; [vm_compute; reflexivity|]. vm_compute. discriminate. Qed.

Section BatchFacts.
Context (T : Transport) (D : Client.Codec).
Import Client.

(** A bulk list of 0 or more than 100 team identifiers is refused before
    anything is built or sent. *)
Lemma ArchiveTeams_rejects_locally c orgID teamIDs s :
  length teamIDs = 0%nat ∨ (100 < length teamIDs)%nat →
  ArchiveTeams T D c orgID teamIDs s
  = (Err ("teamIDs must contain between 1 and 100 items, got "
          +:+ pretty (length teamIDs)), s).
Proof. intros H. unfold ArchiveTeams. by rewrite decide_True. Qed.

Lemma UnarchiveTeams_rejects_locally c orgID teamIDs s :
  length teamIDs = 0%nat ∨ (100 < length teamIDs)%nat →
  UnarchiveTeams T D c orgID teamIDs s
  = (Err ("teamIDs must contain between 1 and 100 items, got "
          +:+ pretty (length teamIDs)), s).
Proof. intros H. unfold UnarchiveTeams. by rewrite decide_True. Qed.

(** [AddTeamMembers] hands its request to the transport whatever the
    number of members. *)
Lemma AddTeamMembers_always_sends c orgID teamID members s :
  newRequestErr T "POST" (URL (addTeamMembers_request c orgID teamID members)) = None →
  sent (AddTeamMembers T D c orgID teamID members s).2
  = sent s ++ [addTeamMembers_request c orgID teamID members].
Proof.
  intros Hnew. unfold AddTeamMembers, net_bind.
  rewrite makeRequestWithHeaders_sent by exact Hnew.
  fold (addTeamMembers_request c orgID teamID members).
  destruct (roundTrip T _ (world s)) as [[e|resp] w']; simpl; [done|].
  case_decide; [done|]. by destruct (decodeAdd D (Body resp)).
Qed.

Lemma RemoveTeamMembers_always_sends c orgID teamID members s :
  newRequestErr T "POST" (URL (removeTeamMembers_request c orgID teamID members)) = None →
  sent (RemoveTeamMembers T D c orgID teamID members s).2
  = sent s ++ [removeTeamMembers_request c orgID teamID members].
Proof.
  intros Hnew. unfold RemoveTeamMembers, net_bind.
  rewrite makeRequestWithHeaders_sent by exact Hnew.
  fold (removeTeamMembers_request c orgID teamID members).
  destruct (roundTrip T _ (world s)) as [[e|resp] w']; simpl; [done|].
  case_decide; [done|]. by destruct (decodeRemove D (Body resp)).
Qed.

(** C4. Batch sizes. A bulk archive or unarchive list of 0 or more than
    100 team identifiers is rejected with an error and the network state
    is left as it was: nothing is sent. The member operations have no such
    check: a list of 0 or more than 50 members is marshalled and sent like
    any other. *)
Theorem batch_size_enforcement c orgID teamID teamIDs members s :
  (length teamIDs = 0%nat ∨ (100 < length teamIDs)%nat →
     is_ok (ArchiveTeams T D c orgID teamIDs s).1 = false
     ∧ (ArchiveTeams T D c orgID teamIDs s).2 = s
     ∧ is_ok (UnarchiveTeams T D c orgID teamIDs s).1 = false
     ∧ (UnarchiveTeams T D c orgID teamIDs s).2 = s)
  ∧ (length members = 0%nat ∨ (50 < length members)%nat →
     (∀ method url, newRequestErr T method url = None) →
     sent (AddTeamMembers T D c orgID teamID members s).2
     = sent s ++ [addTeamMembers_request c orgID teamID members]
     ∧ sent (RemoveTeamMembers T D c orgID teamID members s).2
       = sent s ++ [removeTeamMembers_request c orgID teamID members]).
Proof.
  split.
  - intros H. rewrite ArchiveTeams_rejects_locally, UnarchiveTeams_rejects_locally
      by exact H. done.
  - intros _ Hnew. split.
    + by apply AddTeamMembers_always_sends.
    + by apply RemoveTeamMembers_always_sends.
Qed.
End BatchFacts.

Lemma batch_size_enforcement_witness :
  (Client.ArchiveTeams (Samples.answering (Samples.ok "2 ok, 1 error"))
     Samples.codec Samples.client "org-1" []
     (Samples.fresh (Samples.ok "2 ok, 1 error"))).2
  = Samples.fresh (Samples.ok "2 ok, 1 error")
  ∧ sent (Client.AddTeamMembers (Samples.answering (Samples.ok "2 ok, 1 error"))
            Samples.codec Samples.client "org-1" "T1" []
            (Samples.fresh (Samples.ok "2 ok, 1 error"))).2
    = [addTeamMembers_request Samples.client "org-1" "T1" []].
Proof.
  pose proof (batch_size_enforcement (Samples.answering (Samples.ok "2 ok, 1 error"))
                Samples.codec Samples.client "org-1" "T1" [] []
                (Samples.fresh (Samples.ok "2 ok, 1 error"))) as [Hbulk Hmem].
  split.
  - apply Hbulk. left. reflexivity.
  - apply Hmem; [left; reflexivity | reflexivity].
Defined.

Section PartialSuccess.
Context (T : Transport) (D : Client.Codec).
Import Client.

End PartialSuccess.


Section UpdatePayload.
Context (T : Transport) (D : Client.Codec).
Import Resource.

(** The keys [json.Marshal] writes for an update request. *)
Lemma marshal_UpdateTeamRequest_keys (r : Client.UpdateTeamRequest) :
  (json_keys (Client.marshal_UpdateTeamRequest r) ⊆ ["displayName"; "description"])
  ∧ ("teamType" ∉ json_keys (Client.marshal_UpdateTeamRequest r))
  ∧ ("organizationId" ∉ json_keys (Client.marshal_UpdateTeamRequest r)).
Proof.
  unfold Client.marshal_UpdateTeamRequest, omitempty_string, json_keys.
  repeat case_decide; simpl;
    (split; [intros k; rewrite !elem_of_cons; tauto|]);
    split; intros Hin;
    repeat (apply elem_of_cons in Hin as [Hin|Hin]; [discriminate|]);
    by apply elem_of_nil in Hin.
Qed.

(** [Update] sends nothing, or exactly its one PATCH request. *)
Lemma Update_sends_at_most_patch client plan priorState s :
  sent (Update T D client plan priorState s).2 = sent s
  ∨ sent (Update T D client plan priorState s).2
    = sent s ++ [updateTeam_request client (ValueString (ID (Data plan)))
                   (updateReq_of (Data plan))].
Proof.
  unfold Update, net_bind. destruct (HasError (GetDiags plan)); [by left|].
  unfold Client.UpdateTeam, Client.makeRequest, net_bind.
  destruct (newRequestErr T "PATCH"
              (Client.BaseURL client
               +:+ Client.getTeamAPIPath client ("/teams/" +:+ ValueString (ID (Data plan)))))
    as [e|] eqn:Hnew.
  - rewrite (makeRequestWithHeaders_refused _ _ _ _ _ _ e) by exact Hnew. by left.
  - rewrite makeRequestWithHeaders_sent by exact Hnew. right.
    destruct (roundTrip T _ (world s)) as [[e|resp] w']; simpl; [done|].
    repeat case_decide; try done.
    by destruct (Client.decodeTeam D (Body resp)).
Qed.

(** C6. For every Update call, the only request it can send is the PATCH
    whose body is the serialized update payload, and that payload has no
    key besides displayName and description: it never carries a team-type
    or an organization-id key. *)
Theorem Update_payload_keys client plan priorState s :
  let req := updateTeam_request client (ValueString (ID (Data plan)))
               (updateReq_of (Data plan)) in
  (sent (Update T D client plan priorState s).2 = sent s
   ∨ sent (Update T D client plan priorState s).2 = sent s ++ [req])
  ∧ ∃ payload, ReqBody req = Some payload
      ∧ (json_keys payload ⊆ ["displayName"; "description"])
      ∧ ("teamType" ∉ json_keys payload)
      ∧ ("organizationId" ∉ json_keys payload).
Proof.
  intros req. split; [apply Update_sends_at_most_patch|].
  exists (Client.marshal_UpdateTeamRequest (updateReq_of (Data plan))).
  split; [reflexivity|]. apply marshal_UpdateTeamRequest_keys.
Qed.
End UpdatePayload.

Section PageSize.
Context (T : Transport) (D : Client.Codec).
Import Client.



End PageSize.



Section LengthConstraints.
Context (T : Transport) (D : Client.Codec).
Import Resource.

(** [Create] sends its POST whenever the plan was decoded and the request
    could be built. *)
Lemma Create_sends_post client plan s :
  HasError (GetDiags plan) = false →
  newRequestErr T "POST" (URL (createTeam_request client (createReq_of (Data plan))))
  = None →
  sent (Create T D client plan s).2
  = sent s ++ [createTeam_request client (createReq_of (Data plan))].
Proof.
  intros Hd Hnew. unfold Create, net_bind. rewrite Hd.
  unfold Client.CreateTeam, Client.makeRequest, net_bind.
  rewrite makeRequestWithHeaders_sent by exact Hnew.
  fold (createTeam_request client (createReq_of (Data plan))).
  destruct (roundTrip T _ (world s)) as [[e|resp] w']; simpl; [done|].
  case_decide; [done|]. by destruct (Client.decodeTeam D (Body resp)).
Qed.

Lemma Update_sends_patch client plan priorState s :
  HasError (GetDiags plan) = false →
  newRequestErr T "PATCH"
    (URL (updateTeam_request client (ValueString (ID (Data plan)))
            (updateReq_of (Data plan)))) = None →
  sent (Update T D client plan priorState s).2
  = sent s ++ [updateTeam_request client (ValueString (ID (Data plan)))
                 (updateReq_of (Data plan))].
Proof.
  intros Hd Hnew. unfold Update, net_bind. rewrite Hd.
  unfold Client.UpdateTeam, Client.makeRequest, net_bind.
  rewrite makeRequestWithHeaders_sent by exact Hnew.
  destruct (roundTrip T _ (world s)) as [[e|resp] w']; simpl; [done|].
  repeat case_decide; try done. by destruct (Client.decodeTeam D (Body resp)).
Qed.

(** The validators of the schema look at the team type only. *)
Lemma ValidateConfig_team_type_only config :
  ValidateConfig config
  = OneOf team_type_values "team_type" (TeamType config).
Proof. unfold ValidateConfig. simpl. by rewrite !app_nil_r. Qed.

(** C8. Length constraints. The bounds on displayName (1 to 250
    characters) and description (0 to 360 characters) are checked nowhere:
    validation looks at the team type only, and Create and Update send
    their request with the display name and description of the plan
    whatever their lengths. *)
Theorem length_constraints_not_enforced client plan priorState s :
  HasError (GetDiags plan) = false →
  (∀ method url, newRequestErr T method url = None) →
  ValidateConfig (Data plan)
  = OneOf team_type_values "team_type" (TeamType (Data plan))
  ∧ sent (Create T D client plan s).2
    = sent s ++ [createTeam_request client (createReq_of (Data plan))]
  ∧ Client.create_DisplayName (createReq_of (Data plan))
    = ValueString (DisplayName (Data plan))
  ∧ Client.create_Description (createReq_of (Data plan))
    = ValueString (Description (Data plan))
  ∧ sent (Update T D client plan priorState s).2
    = sent s ++ [updateTeam_request client (ValueString (ID (Data plan)))
                   (updateReq_of (Data plan))].
Proof.
  intros Hd Hnew. split; [apply ValidateConfig_team_type_only|].
  split; [by apply Create_sends_post|]. split; [done|]. split; [done|].
  by apply Update_sends_patch.
Qed.
End LengthConstraints.

Lemma length_constraints_not_enforced_witness :
  String.length (ValueString (Resource.DisplayName Samples.planOutOfRange)) = 0%nat
  ∧ String.length (ValueString (Resource.Description Samples.planOutOfRange)) = 361%nat
  ∧ Resource.ValidateConfig Samples.planOutOfRange = []
  ∧ sent (Resource.Create (Samples.answering (Samples.created "team T1"))
            Samples.codec Samples.client
            (Resource.mkDecoded [] Samples.planOutOfRange)
            (Samples.fresh (Samples.created "team T1"))).2
    = [createTeam_request Samples.client
         (Resource.createReq_of Samples.planOutOfRange)].
Proof.
  pose proof (length_constraints_not_enforced
                (Samples.answering (Samples.created "team T1")) Samples.codec
                Samples.client (Resource.mkDecoded [] Samples.planOutOfRange)
                Samples.stateT1 (Samples.fresh (Samples.created "team T1"))
                eq_refl (λ _ _, eq_refl)) as (Hval & Hcreate & _).
  split; [vm_compute; reflexivity|]. split; [vm_compute; reflexivity|].
  split; [etrans; [exact Hval | reflexivity] | exact Hcreate].
Defined.

Section LegacyFacts.
Context (T : Transport) (G : Legacy.Runtime).
Import Legacy.

Lemma HasError_app_warnings (diags ws : Diagnostics) :
  Forall (λ d, severity d = SeverityWarning) ws →
  HasError (diags ++ ws) = HasError diags.
Proof.
  intros Hws. unfold HasError. rewrite existsb_app.
  replace (existsb is_error ws) with false; [by rewrite orb_false_r|].
  symmetry. induction Hws as [|d ws Hd _ IH]; [done|].
  simpl. unfold is_error at 1. by rewrite Hd.
Qed.

(** An accepted legacy request is handed to the transport exactly once. *)
Lemma legacy_makeRequest_sent c method path body s :
  newRequestErr T method (BaseURL c +:+ path) = None →
  let req := buildRequest G c method path body in
  makeRequest T G c method path body s
  = (match (roundTrip T req (world s)).1 with
     | inl e => Err ("error making request: " +:+ e)
     | inr resp => Ok resp
     end,
     mkNetState (roundTrip T req (world s)).2 (sent s ++ [req])).
Proof.
  intros H req. unfold makeRequest, net_bind, Do. rewrite H. fold req.
  destruct (roundTrip T req (world s)) as [[e|resp] w']; done.
Qed.

Lemma AddTeamMember_sent c teamID member s :
  (∀ method url, newRequestErr T method url = None) →
  sent (AddTeamMember T G c teamID member s).2
  = sent s ++ [addTeamMember_request G c teamID member].
Proof.
  intros Hnew. unfold AddTeamMember, net_bind.
  rewrite legacy_makeRequest_sent by apply Hnew.
  fold (addTeamMember_request G c teamID member).
  destruct (roundTrip T _ (world s)) as [[e|resp] w']; simpl; [done|].
  by case_decide.
Qed.

Lemma RemoveTeamMember_sent c teamID accountID s :
  (∀ method url, newRequestErr T method url = None) →
  sent (RemoveTeamMember T G c teamID accountID s).2
  = sent s ++ [removeTeamMember_request G c teamID accountID].
Proof.
  intros Hnew. unfold RemoveTeamMember, net_bind.
  rewrite legacy_makeRequest_sent by apply Hnew.
  fold (removeTeamMember_request G c teamID accountID).
  destruct (roundTrip T _ (world s)) as [[e|resp] w']; simpl; [done|].
  by repeat case_decide.
Qed.

Lemma member_warnings_are_warnings what ws :
  Forall (member_warning what) ws → Forall (λ d, severity d = SeverityWarning) ws.
Proof. intros H. eapply Forall_impl; [exact H|]. by intros d [? _]. Qed.


End LegacyFacts.

(** ** Go maps filled from a slice *)

Section MapFromSlice.
Context {A : Type} (key : A → string).

(** The keys of a map filled by [m[key x] = x] over a slice. *)
Lemma dom_fold_insert (l : list A) (m : gmap string A) :
  dom (fold_left (λ m x, <[key x := x]> m) l m)
  = dom m ∪ list_to_set (key <$> l).
Proof.
  revert m. induction l as [|x l IH]; intros m; simpl.
  - set_solver.
  - rewrite IH, dom_insert_L. set_solver.
Qed.

(** Every entry of such a map sits under the key of its value. *)
Lemma fold_insert_key (l : list A) (m : gmap string A) a x :
  (∀ b y, m !! b = Some y → key y = b) →
  fold_left (λ m x, <[key x := x]> m) l m !! a = Some x → key x = a.
Proof.
  revert m. induction l as [|y l IH]; intros m Hm; simpl.
  - apply Hm.
  - apply IH. intros b z. rewrite lookup_insert.
    case_decide; [naive_solver | apply Hm].
Qed.
End MapFromSlice.

Section LegacyDiff.
Context (T : Transport) (G : Legacy.Runtime).
Import Legacy.

Lemma dom_newMemberMap_of newMembers :
  dom (newMemberMap_of newMembers) = declared_accounts newMembers.
Proof.
  unfold newMemberMap_of, declared_accounts.
  rewrite (dom_fold_insert (λ member, ValueString (m_AccountID member))).
  set_solver.
Qed.

Lemma dom_currentMemberMap_of currentMembers :
  dom (currentMemberMap_of currentMembers) = remote_accounts currentMembers.
Proof.
  unfold currentMemberMap_of, remote_accounts.
  rewrite (dom_fold_insert AccountID). set_solver.
Qed.

Lemma newMemberMap_of_key newMembers a member :
  newMemberMap_of newMembers !! a = Some member →
  AccountID (teamMember_of member) = a.
Proof.
  intros H. apply (fold_insert_key (λ member, ValueString (m_AccountID member))) in H;
    [done|]. intros b y. by rewrite lookup_empty.
Qed.

(** What a [range] loop visits: every key once, the keys of the map. *)
Lemma rangeOf_keys {A} (m : gmap string A) :
  NoDup (rangeOf G A m).*1 ∧ ∀ a, a ∈ (rangeOf G A m).*1 ↔ a ∈ dom m.
Proof.
  pose proof (rangeOf_perm G A m) as Hperm. split.
  - rewrite Hperm. apply NoDup_fst_map_to_list.
  - intros a. rewrite Hperm, elem_of_dom. rewrite list_elem_of_fmap. split.
    + intros ([b x] & -> & Hin). apply elem_of_map_to_list in Hin. by exists x.
    + intros [x Hx]. exists (a, x). split; [done|]. by apply elem_of_map_to_list.
Qed.

Lemma rangeOf_lookup {A} (m : gmap string A) a x :
  (a, x) ∈ rangeOf G A m → m !! a = Some x.
Proof. rewrite (rangeOf_perm G A m). apply elem_of_map_to_list. Qed.

(** First loop of the legacy [Update]: one DELETE per visited account
    that the plan no longer has; only warnings are added. *)
Lemma update_removeMembers_spec c teamID (newMemberMap : gmap string TeamMemberModel)
    (entries : list (string * TeamMember)) diags s :
  (∀ method url, newRequestErr T method url = None) →
  ∃ ws,
    (update_removeMembers T G c teamID newMemberMap entries diags s).1 = diags ++ ws
    ∧ Forall (member_warning "Member Removal Failed") ws
    ∧ sent (update_removeMembers T G c teamID newMemberMap entries diags s).2
      = sent s ++ (removeTeamMember_request G c teamID
                   <$> filter (λ a, a ∉ dom newMemberMap) entries.*1).
Proof.
  intros Hnew. revert diags s.
  induction entries as [|[accountID member] rest IH]; intros diags s;
    cbn [update_removeMembers].
  - exists []. rewrite !app_nil_r. unfold net_ret. simpl.
    split; [done|]. split; [constructor|done].
  - rewrite fmap_cons, filter_cons. cbn [fst].
    destruct (newMemberMap !! accountID) as [m|] eqn:Hlook.
    + rewrite decide_False by (intros Hn; by apply not_elem_of_dom in Hn; congruence).
      apply IH.
    + rewrite decide_True by (by apply not_elem_of_dom).
      unfold net_bind.
      pose proof (RemoveTeamMember_sent T G c teamID accountID s Hnew) as Hsent.
      destruct (RemoveTeamMember T G c teamID accountID s) as [err s1].
      cbn [snd] in Hsent. destruct err as [e|]; cbv iota.
      * destruct (IH (AddWarning "Member Removal Failed"
                        ("Unable to remove member " +:+ accountID
                         +:+ " from team: " +:+ e) diags) s1)
          as (ws & Hd & Hws & Hreq).
        eexists (_ :: ws). rewrite Hd, Hreq, Hsent. unfold AddWarning.
        rewrite <- !app_assoc. simpl.
        split; [done|]. split; [by constructor|done].
      * destruct (IH diags s1) as (ws & Hd & Hws & Hreq).
        exists ws. rewrite Hd, Hreq, Hsent. rewrite <- !app_assoc. simpl.
        split; [done|]. split; [done|done].
Qed.

(** Second loop of the legacy [Update]: one POST per visited declared
    member that the API did not report; only warnings are added. *)
Lemma update_addMembers_spec c teamID (currentMemberMap : gmap string TeamMember)
    (entries : list (string * TeamMemberModel)) diags s :
  (∀ method url, newRequestErr T method url = None) →
  ∃ ws,
    (update_addMembers T G c teamID currentMemberMap entries diags s).1 = diags ++ ws
    ∧ Forall (member_warning "Member Addition Failed") ws
    ∧ sent (update_addMembers T G c teamID currentMemberMap entries diags s).2
      = sent s ++ (addTeamMember_request G c teamID ∘ teamMember_of ∘ snd
                   <$> filter (λ e, e.1 ∉ dom currentMemberMap) entries).
Proof.
  intros Hnew. revert diags s.
  induction entries as [|[accountID member] rest IH]; intros diags s;
    cbn [update_addMembers].
  - exists []. rewrite !app_nil_r. unfold net_ret. simpl.
    split; [done|]. split; [constructor|done].
  - rewrite filter_cons. cbn [fst].
    destruct (currentMemberMap !! accountID) as [m|] eqn:Hlook.
    + rewrite decide_False by (intros Hn; by apply not_elem_of_dom in Hn; congruence).
      apply IH.
    + rewrite decide_True by (by apply not_elem_of_dom).
      unfold net_bind.
      pose proof (AddTeamMember_sent T G c teamID (teamMember_of member) s Hnew)
        as Hsent.
      destruct (AddTeamMember T G c teamID (teamMember_of member) s) as [err s1].
      cbn [snd] in Hsent. destruct err as [e|]; cbv iota.
      * destruct (IH (AddWarning "Member Addition Failed"
                        ("Unable to add member " +:+ accountID
                         +:+ " to team: " +:+ e) diags) s1)
          as (ws & Hd & Hws & Hreq).
        eexists (_ :: ws). rewrite Hd, Hreq, Hsent. unfold AddWarning.
        rewrite <- !app_assoc. simpl.
        split; [done|]. split; [by constructor|done].
      * destruct (IH diags s1) as (ws & Hd & Hws & Hreq).
        exists ws. rewrite Hd, Hreq, Hsent. rewrite <- !app_assoc. simpl.
        split; [done|]. split; [done|done].
Qed.
End LegacyDiff.

Lemma list_to_set_empty_nil (l : list string) :
  list_to_set l =@{gset string} ∅ ↔ l = [].
Proof.
  split; [|by intros ->]. destruct l as [|x l]; [done|]. intros H.
  assert (x ∈ (∅ : gset string)) by (rewrite <- H; set_solver). set_solver.
Qed.

(** Two sets are equal exactly when neither has an element the other
    lacks. *)
Lemma differences_empty_iff (R D : gset string) :
  R ∖ D = ∅ ∧ D ∖ R = ∅ ↔ R = D.
Proof.
  split.
  - intros [HRD HDR]. apply set_eq. intros a. split; intros Ha.
    + destruct (decide (a ∈ D)) as [|Hn]; [done|].
      assert (a ∈ R ∖ D) as Hin by (by apply elem_of_difference).
      rewrite HRD in Hin. by apply not_elem_of_empty in Hin.
    + destruct (decide (a ∈ R)) as [|Hn]; [done|].
      assert (a ∈ D ∖ R) as Hin by (by apply elem_of_difference).
      rewrite HDR in Hin. by apply not_elem_of_empty in Hin.
  - intros ->. split; apply set_eq; intros a;
      rewrite elem_of_difference; split; [tauto | by intros ?%not_elem_of_empty
                                         | tauto | by intros ?%not_elem_of_empty].
Qed.

Section LegacyUpdate.
Context (T : Transport) (G : Legacy.Runtime).
Import Legacy.

(** The legacy [Update] once the team is updated and its current members
    are fetched: the removals are the accounts the API reported and the
    plan lacks, the additions the declared accounts the API did not
    report, each account once. *)
Lemma legacy_Update_member_diff client plan priorState newMembers team
    currentMembers s s1 s2 :
  HasError (GetDiags plan) = false →
  (∀ method url, newRequestErr T method url = None) →
  m_Members (Data plan) = SetValue newMembers →
  UpdateTeam T G client (ValueString (ID (Data plan))) (updateReq_of (Data plan)) s
  = (Ok team, s1) →
  GetTeamMembers T G client (ValueString (ID (Data plan))) s1
  = (Ok currentMembers, s2) →
  ∃ removed added rsp s3,
    Update T G client plan priorState s = (rsp, s3)
    ∧ is_Some (resp_State rsp)
    ∧ HasError (resp_Diagnostics rsp) = false
    ∧ sent s3
      = sent s2
        ++ (removeTeamMember_request G client (ValueString (ID (Data plan)))
            <$> removed)
        ++ (addTeamMember_request G client (ValueString (ID (Data plan)))
            <$> added)
    ∧ NoDup removed
    ∧ NoDup (AccountID <$> added)
    ∧ list_to_set removed
      = remote_accounts currentMembers ∖ declared_accounts newMembers
    ∧ list_to_set (AccountID <$> added)
      = declared_accounts newMembers ∖ remote_accounts currentMembers
    ∧ (removed = [] ∧ added = []
       ↔ remote_accounts currentMembers = declared_accounts newMembers).
Proof.
  intros Hd Hnew Hmem Hupd Hget.
  set (teamID := ValueString (ID (Data plan))) in *.
  set (newMap := newMemberMap_of newMembers).
  set (curMap := currentMemberMap_of currentMembers).
  set (removed := filter (λ a, a ∉ dom newMap) (rangeOf G _ curMap).*1).
  set (addedEntries := filter (λ e : string * TeamMemberModel, e.1 ∉ dom curMap)
                         (rangeOf G _ newMap)).
  destruct (update_removeMembers_spec T G client teamID newMap (rangeOf G _ curMap)
              (GetDiags plan) s2 Hnew) as (ws1 & Hd1 & Hws1 & Hsent1).
  destruct (update_removeMembers T G client teamID newMap (rangeOf G _ curMap)
              (GetDiags plan) s2) as [diags1 s3] eqn:Hloop1.
  cbn [fst snd] in Hd1, Hsent1. subst diags1.
  destruct (update_addMembers_spec T G client teamID curMap (rangeOf G _ newMap)
              (GetDiags plan ++ ws1) s3 Hnew) as (ws2 & Hd2 & Hws2 & Hsent2).
  destruct (update_addMembers T G client teamID curMap (rangeOf G _ newMap)
              (GetDiags plan ++ ws1) s3) as [diags2 s4] eqn:Hloop2.
  cbn [fst snd] in Hd2, Hsent2. subst diags2.
  assert (Hkeys : AccountID <$> (teamMember_of ∘ snd <$> addedEntries)
                  = addedEntries.*1).
  { rewrite <- list_fmap_compose. apply Forall_fmap_ext, Forall_forall. intros [a member] Hin.
    apply list_elem_of_filter in Hin as [_ Hin].
    apply rangeOf_lookup in Hin. by apply newMemberMap_of_key in Hin. }
  assert (HR : dom curMap = remote_accounts currentMembers)
    by apply dom_currentMemberMap_of.
  assert (HD : dom newMap = declared_accounts newMembers)
    by apply dom_newMemberMap_of.
  destruct (rangeOf_keys G curMap) as [Hnd1 Hin1].
  destruct (rangeOf_keys G newMap) as [Hnd2 Hin2].
  assert (Hrm : list_to_set removed =@{gset string} dom curMap ∖ dom newMap).
  { apply set_eq. intros a. rewrite elem_of_list_to_set, elem_of_difference.
    unfold removed. rewrite list_elem_of_filter, Hin1. tauto. }
  assert (Hadd : list_to_set addedEntries.*1 =@{gset string} dom newMap ∖ dom curMap).
  { apply set_eq. intros a. rewrite elem_of_list_to_set, elem_of_difference.
    rewrite <- Hin2, !list_elem_of_fmap. split.
    - intros ([b x] & -> & Hin). apply list_elem_of_filter in Hin as [Hn Hin].
      split; [|done]. by exists (b, x).
    - intros [([b x] & -> & Hin) Hn]. exists (b, x). split; [done|].
      by apply list_elem_of_filter. }
  exists removed, (teamMember_of ∘ snd <$> addedEntries).
  eexists _, s4. split.
  { unfold Update, net_bind. cbv zeta. rewrite Hd. fold teamID. rewrite Hupd.
    cbn [m_Members ID]. rewrite Hmem. cbv beta iota. fold teamID. rewrite Hget.
    fold newMap curMap. rewrite Hloop1, Hloop2. reflexivity. }
  cbn [resp_State resp_Diagnostics].
  rewrite Hkeys, Hrm, Hadd, HR, HD.
  split; [by eexists|]. split.
  { rewrite <- app_assoc, HasError_app_warnings; [done|].
    apply Forall_app. split; by eapply member_warnings_are_warnings. }
  split. { rewrite Hsent2, Hsent1, <- app_assoc, <- list_fmap_compose. done. }
  split. { apply NoDup_filter, Hnd1. }
  split. { eapply sublist_NoDup; [exact Hnd2|]. apply fmap_sublist, sublist_filter. }
  split; [done|]. split; [done|].
  assert (Hnil : teamMember_of ∘ snd <$> addedEntries = [] ↔ addedEntries.*1 = []).
  { split; intros Hn; apply fmap_nil_inv in Hn; by rewrite Hn. }
  rewrite Hnil, <- (list_to_set_empty_nil removed),
    <- (list_to_set_empty_nil addedEntries.*1), Hrm, Hadd, HR, HD.
  apply differences_empty_iff.
Qed.
End LegacyUpdate.

(** ** The current resource issues no member call *)

Lemma json_field_None k fields :
  k ∉ fields.*1 → json_field k (JObj fields) = None.
Proof.
  intros Hk. unfold json_field.
  rewrite (proj2 (list_find_None (λ kv : string * json, kv.1 = k) fields)); [done|].
  apply Forall_forall. intros [k' v] Hin Heq. simpl in Heq. subst k'.
  apply Hk, list_elem_of_fmap. by exists (k, v).
Qed.

(** A request whose body is an object without a "members" key carries no
    account, whatever its endpoint. *)
Lemma no_members_key_no_accounts (req : Request) fields :
  ReqBody req = Some (JObj fields) → "members" ∉ fields.*1 →
  added_accounts [req] = [] ∧ removed_accounts [req] = [].
Proof.
  intros Hbody Hkey.
  assert (payload_accounts (ReqBody req) = []) as Hnone.
  { rewrite Hbody. unfold payload_accounts. by rewrite json_field_None. }
  unfold added_accounts, removed_accounts, add_member_calls, remove_member_calls.
  simpl. split.
  - destruct (has_suffix "/members/add" (URL req)); simpl; [|done].
    by rewrite Hnone.
  - destruct (has_suffix "/members/remove" (URL req)); simpl; [|done].
    by rewrite Hnone.
Qed.

Section NoMemberCalls.
Context (T : Transport) (D : Client.Codec).
Import Resource.



(** The current [Update] sends no membership payload. *)
Lemma Update_no_member_payload client plan priorState s :
  ∃ new, sent (Update T D client plan priorState s).2 = sent s ++ new
         ∧ added_accounts new = [] ∧ removed_accounts new = [].
Proof.
  destruct (Update_sends_at_most_patch T D client plan priorState s) as [Hs|Hs].
  - exists []. by rewrite app_nil_r.
  - eexists [_]. split; [exact Hs|].
    eapply no_members_key_no_accounts; [reflexivity|].
    unfold omitempty_string. repeat case_decide; simpl;
      intros Hin; repeat (apply elem_of_cons in Hin as [Hin|Hin]; [discriminate|]);
      by apply elem_of_nil in Hin.
Qed.
End NoMemberCalls.

(** C1, as the code has it. The legacy Update, once the team is updated
    and its current members R are fetched for a declared member set D,
    issues one remove call per account of R∖D and one add call per account
    of D∖R, members compared by account identifier only, each account once;
    it issues no member call exactly when R = D, and the outcomes of the
    member calls add warnings only. The current Update carries no
    membership payload at all: whatever R and D are, the requests it sends
    add and remove no account. *)
Theorem Update_membership_diff (T : Transport) (G : Legacy.Runtime)
    (D : Client.Codec) client plan priorState newMembers team currentMembers
    s s1 s2 cclient cplan cprior cs :
  (HasError (Legacy.GetDiags plan) = false →
   (∀ method url, newRequestErr T method url = None) →
   Legacy.m_Members (Legacy.Data plan) = SetValue newMembers →
   Legacy.UpdateTeam T G client (ValueString (Legacy.ID (Legacy.Data plan)))
     (Legacy.updateReq_of (Legacy.Data plan)) s = (Ok team, s1) →
   Legacy.GetTeamMembers T G client (ValueString (Legacy.ID (Legacy.Data plan))) s1
   = (Ok currentMembers, s2) →
   ∃ removed added rsp s3,
     Legacy.Update T G client plan priorState s = (rsp, s3)
     ∧ is_Some (Legacy.resp_State rsp)
     ∧ HasError (Legacy.resp_Diagnostics rsp) = false
     ∧ sent s3
       = sent s2
         ++ (removeTeamMember_request G client
               (ValueString (Legacy.ID (Legacy.Data plan))) <$> removed)
         ++ (addTeamMember_request G client
               (ValueString (Legacy.ID (Legacy.Data plan))) <$> added)
     ∧ NoDup removed
     ∧ NoDup (Legacy.AccountID <$> added)
     ∧ list_to_set removed
       = remote_accounts currentMembers ∖ declared_accounts newMembers
     ∧ list_to_set (Legacy.AccountID <$> added)
       = declared_accounts newMembers ∖ remote_accounts currentMembers
     ∧ (removed = [] ∧ added = []
        ↔ remote_accounts currentMembers = declared_accounts newMembers))
  ∧ ∃ new, sent (Resource.Update T D cclient cplan cprior cs).2 = sent cs ++ new
           ∧ added_accounts new = [] ∧ removed_accounts new = [].
Proof.
  split.
  - apply legacy_Update_member_diff.
  - apply Update_no_member_payload.
Qed.


Lemma Update_membership_diff_witness :
  ∃ rsp s3,
    Legacy.Update Samples.scripted Samples.runtime Samples.legacyClient
      (Legacy.mkDecoded [] Samples.legacyPlan) Samples.legacyPlan
      (Samples.play Samples.updateScript) = (rsp, s3)
    ∧ HasError (Legacy.resp_Diagnostics rsp) = false
    ∧ ∃ removed added,
        drop 2 (sent s3)
        = (removeTeamMember_request Samples.runtime Samples.legacyClient "T1"
           <$> removed)
          ++ (addTeamMember_request Samples.runtime Samples.legacyClient "T1"
              <$> added)
        ∧ list_to_set removed
          = remote_accounts [Samples.remoteMember "A"; Samples.remoteMember "C"]
            ∖ declared_accounts [Samples.legacyMember "A"; Samples.legacyMember "B"]
        ∧ list_to_set (Legacy.AccountID <$> added)
          = declared_accounts [Samples.legacyMember "A"; Samples.legacyMember "B"]
            ∖ remote_accounts [Samples.remoteMember "A"; Samples.remoteMember "C"].
Proof.
  pose (s1 := @mkNetState Samples.scripted
                [inr (Samples.ok "members A, C"); inr Samples.noContent;
                 inr (Samples.created EmptyString)]
                [Legacy.buildRequest Samples.runtime Samples.legacyClient "PUT"
                   "/admin/v1/orgs/acme/teams/T1"
                   (Some (Legacy.marshal_UpdateTeamRequest
                            (Legacy.updateReq_of Samples.legacyPlan)))]).
  pose (s2 := @mkNetState Samples.scripted
                [inr Samples.noContent; inr (Samples.created EmptyString)]
                (sent s1 ++ [Legacy.buildRequest Samples.runtime Samples.legacyClient
                               "GET" "/admin/v1/orgs/acme/teams/T1/members" None])).
  destruct (proj1 (Update_membership_diff Samples.scripted Samples.runtime
              Samples.codec Samples.legacyClient
              (Legacy.mkDecoded [] Samples.legacyPlan) Samples.legacyPlan
              [Samples.legacyMember "A"; Samples.legacyMember "B"]
              Samples.legacyTeam
              [Samples.remoteMember "A"; Samples.remoteMember "C"]
              (Samples.play Samples.updateScript) s1 s2
              Samples.client (Resource.mkDecoded [] Samples.planT1)
              Samples.stateT1 (Samples.play []))
            eq_refl (λ _ _, eq_refl) eq_refl eq_refl eq_refl)
    as (removed & added & rsp & s3 & Hrun & _ & Herr & Hsent & _ & _ & Hrm & Hadd & _).
  exists rsp, s3. split; [exact Hrun|]. split; [exact Herr|].
  exists removed, added. split; [|split; [exact Hrm | exact Hadd]].
  rewrite Hsent. reflexivity.
Defined.

(** Update of team T1 with declared members A and B while the tracked
    remote members are A and C: the only request is the PATCH, so no
    account is added and none removed, where the specification promised
    an add payload of B and a remove payload of C. *)
Lemma Update_T1_moves_no_member :
  let run := Resource.Update (Samples.answering (Samples.ok "team T1"))
               Samples.codec Samples.client
               (Resource.mkDecoded [] Samples.planT1) Samples.stateT1
               (Samples.fresh (Samples.ok "team T1")) in
  let declared := model_accounts (Resource.Members Samples.planT1) in
  let remote := model_accounts (Resource.Members Samples.stateT1) in
  HasError (Resource.resp_Diagnostics run.1) = false
  ∧ sent run.2
    = [updateTeam_request Samples.client "T1" (Resource.updateReq_of Samples.planT1)]
  ∧ "B" ∈ declared ∖ remote
  ∧ "C" ∈ remote ∖ declared
  ∧ list_to_set (added_accounts (sent run.2)) ≠ declared ∖ remote
  ∧ list_to_set (removed_accounts (sent run.2)) ≠ remote ∖ declared.
Proof.
  intros run declared remote.
  assert (HB : "B" ∈ declared ∖ remote).
  { unfold declared, remote. simpl. set_solver. }
  assert (HC : "C" ∈ remote ∖ declared).
  { unfold declared, remote. simpl. set_solver. }
  assert (Hadded : added_accounts (sent run.2) = []) by (vm_compute; reflexivity).
  assert (Hremoved : removed_accounts (sent run.2) = []) by (vm_compute; reflexivity).
  split; [vm_compute; reflexivity|]. split; [vm_compute; reflexivity|].
  split; [exact HB|]. split; [exact HC|]. rewrite Hadded, Hremoved. simpl. split.
  - intros Heq. rewrite <- Heq in HB. by apply not_elem_of_empty in HB.
  - intros Heq. rewrite <- Heq in HC. by apply not_elem_of_empty in HC.
Qed.



(** * Further properties of the code *)

(** ** Strings *)



(** ** The client *)

Section ClientCalls.
Context (T : Transport) (D : Client.Codec).
Import Client.

Lemma makeRequestWithHeaders_at_most_one c method path body hs s :
  at_most_one_more T s (makeRequestWithHeaders T c method path body hs s).2.
Proof.
  destruct (newRequestErr T method (BaseURL c +:+ path)) as [e|] eqn:Hnew.
  - rewrite (makeRequestWithHeaders_refused _ _ _ _ _ _ e) by exact Hnew. by left.
  - rewrite makeRequestWithHeaders_sent by exact Hnew. right. by eexists.
Qed.

Ltac one_request T c s :=
  unfold Client.CreateTeam, Client.GetTeam, Client.UpdateTeam, Client.DeleteTeam,
    Client.ArchiveTeams, Client.UnarchiveTeams, Client.RestoreTeam,
    Client.GetTeams, Client.FetchTeamMembers, Client.AddTeamMembers,
    Client.RemoveTeamMembers, Client.makeRequest, net_bind;
  try (case_decide; [by left|]);
  match goal with
  | |- context [Client.makeRequestWithHeaders T c ?m ?p ?b ?h s] =>
      let Hone := fresh "Hone" in
      pose proof (makeRequestWithHeaders_at_most_one c m p b h s) as Hone;
      destruct (Client.makeRequestWithHeaders T c m p b h s) as [[?|?] ?];
      simpl in *; try exact Hone;
      repeat case_decide; try exact Hone;
      match goal with
      | |- context [match ?d with Ok _ => _ | Err _ => _ end] => by destruct d
      end
  end.

(** The four calls the resource makes. *)
Lemma team_calls_at_most_one c s teamID createReq updateReq :
  at_most_one_more T s (CreateTeam T D c createReq s).2
  ∧ at_most_one_more T s (GetTeam T D c teamID s).2
  ∧ at_most_one_more T s (UpdateTeam T D c teamID updateReq s).2
  ∧ at_most_one_more T s (DeleteTeam T c teamID s).2.
Proof. repeat split; one_request T c s. Qed.

(** X1. Every call of the client hands at most one request to the transport
    and leaves the earlier log in place: no call retries, none sends a
    second request. *)
Theorem client_calls_send_at_most_one_request c s orgID teamID siteId cursor
    after size first teamIDs members createReq updateReq :
  at_most_one_more T s (CreateTeam T D c createReq s).2
  ∧ at_most_one_more T s (GetTeam T D c teamID s).2
  ∧ at_most_one_more T s (UpdateTeam T D c teamID updateReq s).2
  ∧ at_most_one_more T s (DeleteTeam T c teamID s).2
  ∧ at_most_one_more T s (ArchiveTeams T D c orgID teamIDs s).2
  ∧ at_most_one_more T s (UnarchiveTeams T D c orgID teamIDs s).2
  ∧ at_most_one_more T s (RestoreTeam T c orgID teamID s).2
  ∧ at_most_one_more T s (GetTeams T D c orgID siteId size cursor s).2
  ∧ at_most_one_more T s (FetchTeamMembers T D c orgID teamID siteId after first s).2
  ∧ at_most_one_more T s (AddTeamMembers T D c orgID teamID members s).2
  ∧ at_most_one_more T s (RemoveTeamMembers T D c orgID teamID members s).2.
Proof.
  destruct (team_calls_at_most_one c s teamID createReq updateReq)
    as (Hc & Hg & Hu & Hd).
  split; [exact Hc|]. split; [exact Hg|]. split; [exact Hu|]. split; [exact Hd|].
  repeat split; one_request T c s.
Qed.

(** X2. [RestoreTeam] once the transport has answered: nil for 204 only; a
    404 is reported as not found, and 200 is an error like any other
    status. *)
Theorem RestoreTeam_succeeds_iff_204 c orgID teamID s resp w' :
  answers T (restoreTeam_request c orgID teamID) s resp w' →
  ((RestoreTeam T c orgID teamID s).1 = None ↔ StatusCode resp = 204)
  ∧ (StatusCode resp = 404 →
     (RestoreTeam T c orgID teamID s).1
     = Some ("team not found for restore: " +:+ teamID))
  ∧ (StatusCode resp ≠ 204 → StatusCode resp ≠ 404 →
     (RestoreTeam T c orgID teamID s).1
     = Some ("API error restoring team: " +:+ Status resp +:+ " - " +:+ Body resp)).
Proof.
  intros Hans. unfold RestoreTeam, makeRequest, net_bind.
  rewrite (makeRequestWithHeaders_answers T _ _ _ _ _ _ _ _ Hans).
  unfold StatusNotFound, StatusNoContent, net_ret.
  repeat case_decide; simpl; (split; [split; [done || lia | done || lia]|]);
    split; intros; try done; try lia.
Qed.
End ClientCalls.

Section ClientResults.
Context (T : Transport) (D : Client.Codec).
Import Client.

(** X3. The three calls that return a team: once the transport has answered,
    [CreateTeam] yields a team exactly for status 200 or 201 with a body
    that decodes, [GetTeam] and [UpdateTeam] exactly for status 200 with a
    body that decodes; the team is the decoded body. *)
Theorem team_calls_succeed_iff c teamID createReq updateReq s resp w' team :
  (answers T (createTeam_request c createReq) s resp w' →
   (CreateTeam T D c createReq s).1 = Ok team
   ↔ (StatusCode resp = 200 ∨ StatusCode resp = 201)
     ∧ decodeTeam D (Body resp) = Ok team)
  ∧ (answers T (getTeam_request c teamID) s resp w' →
     (GetTeam T D c teamID s).1 = Ok team
     ↔ StatusCode resp = 200 ∧ decodeTeam D (Body resp) = Ok team)
  ∧ (answers T (updateTeam_request c teamID updateReq) s resp w' →
     (UpdateTeam T D c teamID updateReq s).1 = Ok team
     ↔ StatusCode resp = 200 ∧ decodeTeam D (Body resp) = Ok team).
Proof.
  split; [|split]; intros Hans;
    unfold CreateTeam, GetTeam, UpdateTeam, makeRequest, net_bind;
    rewrite (makeRequestWithHeaders_answers T _ _ _ _ _ _ _ _ Hans);
    unfold StatusCreated, StatusOK, StatusNotFound, net_ret;
    repeat case_decide; simpl;
    (split; [intros Heq | intros [Hst Hdec]]); try done; try lia;
    try (destruct (decodeTeam D (Body resp)); simpl in *; [split; [lia|] |];
         congruence);
    try (rewrite Hdec; done).
Qed.



(** X5. The update payload drops a display name or a description that is
    empty, so Update cannot blank either field; the creation payload
    always carries displayName, description and teamType, empty or not,
    and drops only an empty siteId. *)
Theorem payload_empty_fields (upd : UpdateTeamRequest) (cre : CreateTeamRequest) :
  json_field "displayName" (marshal_UpdateTeamRequest upd)
  = (if decide (update_DisplayName upd = EmptyString) then None
     else Some (JStr (update_DisplayName upd)))
  ∧ json_field "description" (marshal_UpdateTeamRequest upd)
    = (if decide (update_Description upd = EmptyString) then None
       else Some (JStr (update_Description upd)))
  ∧ json_field "displayName" (marshal_CreateTeamRequest cre)
    = Some (JStr (create_DisplayName cre))
  ∧ json_field "description" (marshal_CreateTeamRequest cre)
    = Some (JStr (create_Description cre))
  ∧ json_field "teamType" (marshal_CreateTeamRequest cre)
    = Some (JStr (create_TeamType cre))
  ∧ json_field "siteId" (marshal_CreateTeamRequest cre)
    = (if decide (create_SiteId cre = EmptyString) then None
       else Some (JStr (create_SiteId cre))).
Proof.
  unfold marshal_UpdateTeamRequest, marshal_CreateTeamRequest, omitempty_string,
    json_field.
  repeat split; repeat case_decide; simpl; repeat case_decide; simpl;
    try done; simplify_eq.
Qed.
End ClientResults.

Section CollectionResults.
Context (T : Transport) (D : Client.Codec).
Import Client.

(** X6. The calls on collections and members accept status 200 only: once
    the transport has answered, each yields a result exactly when the
    status is 200 and the body decodes, and the result is the decoded
    body; 201, 204 and every other status are errors. For the two bulk
    calls this is for a batch of 1 to 100 identifiers. *)
Theorem collection_calls_succeed_iff c orgID teamID siteId cursor after size
    first teamIDs members s resp w' :
  ((0 < length teamIDs ≤ 100)%nat →
   (answers T (archiveTeams_request c orgID teamIDs) s resp w' →
    ∀ v, (ArchiveTeams T D c orgID teamIDs s).1 = Ok v
         ↔ StatusCode resp = 200 ∧ decodeBulk D (Body resp) = Ok v)
   ∧ (answers T (unarchiveTeams_request c orgID teamIDs) s resp w' →
      ∀ v, (UnarchiveTeams T D c orgID teamIDs s).1 = Ok v
           ↔ StatusCode resp = 200 ∧ decodeBulk D (Body resp) = Ok v))
  ∧ (answers T (getTeams_request c orgID siteId size cursor) s resp w' →
     ∀ v, (GetTeams T D c orgID siteId size cursor s).1 = Ok v
          ↔ StatusCode resp = 200 ∧ decodePage D (Body resp) = Ok v)
  ∧ (answers T (fetchTeamMembers_request c orgID teamID siteId after first)
       s resp w' →
     ∀ v, (FetchTeamMembers T D c orgID teamID siteId after first s).1 = Ok v
          ↔ StatusCode resp = 200 ∧ decodeFetch D (Body resp) = Ok v)
  ∧ (answers T (addTeamMembers_request c orgID teamID members) s resp w' →
     ∀ v, (AddTeamMembers T D c orgID teamID members s).1 = Ok v
          ↔ StatusCode resp = 200 ∧ decodeAdd D (Body resp) = Ok v)
  ∧ (answers T (removeTeamMembers_request c orgID teamID members) s resp w' →
     ∀ v, (RemoveTeamMembers T D c orgID teamID members s).1 = Ok v
          ↔ StatusCode resp = 200 ∧ decodeRemove D (Body resp) = Ok v).
Proof.
  split; [intros Hlen; split|split; [|split; [|split]]]; intros Hans v;
    unfold ArchiveTeams, UnarchiveTeams, GetTeams, FetchTeamMembers,
      AddTeamMembers, RemoveTeamMembers, makeRequest, net_bind;
    try (rewrite decide_False by lia);
    cbv zeta; unfold net_bind;
    unfold archiveTeams_request, unarchiveTeams_request, getTeams_request,
      fetchTeamMembers_request, addTeamMembers_request,
      removeTeamMembers_request in Hans; cbv zeta in Hans;
    rewrite (makeRequestWithHeaders_answers T _ _ _ _ _ _ _ _ Hans);
    unfold StatusOK, net_ret; repeat case_decide; simpl;
    (split; [intros Heq | intros [Hst' Hdec]]); try done; try lia;
    try (rewrite Hdec; done);
    (split; [lia|]);
    match type of Heq with
    | context [match ?d with _ => _ end] => destruct d; simpl in *; congruence
    end.
Qed.
End CollectionResults.

Section MemberPayloads.
Context (T : Transport) (D : Client.Codec).
Import Client.






End MemberPayloads.


(** ** The current resource *)

Section ResourceBehaviour.
Context (T : Transport) (D : Client.Codec).
Import Resource.

Lemma at_most_one_more_refl (s : NetState T) : at_most_one_more T s s.
Proof. by left. Qed.

(** X8. What every operation of the current resource does to the diagnostics
    and to the network: it adds nothing or a single "Client Error" error
    (never a warning), and sends at most one request; when the plan or
    state could not be decoded without error it adds nothing and sends
    nothing. *)
Theorem resource_ops_one_request_one_error client x priorState s :
  (adds_at_most_one_client_error (GetDiags x)
     (resp_Diagnostics (Create T D client x s).1)
   ∧ at_most_one_more T s (Create T D client x s).2)
  ∧ (adds_at_most_one_client_error (GetDiags x)
       (resp_Diagnostics (Read T D client x s).1)
     ∧ at_most_one_more T s (Read T D client x s).2)
  ∧ (adds_at_most_one_client_error (GetDiags x)
       (resp_Diagnostics (Update T D client x priorState s).1)
     ∧ at_most_one_more T s (Update T D client x priorState s).2)
  ∧ (adds_at_most_one_client_error (GetDiags x) (Delete T client x s).1
     ∧ at_most_one_more T s (Delete T client x s).2)
  ∧ (HasError (GetDiags x) = true →
     Create T D client x s = (mkOpResponse None (GetDiags x), s)
     ∧ Read T D client x s = (mkOpResponse (Some (Data x)) (GetDiags x), s)
     ∧ Update T D client x priorState s
       = (mkOpResponse (Some priorState) (GetDiags x), s)
     ∧ Delete T client x s = (GetDiags x, s)).
Proof.
  destruct (team_calls_at_most_one T D client s (ValueString (ID (Data x)))
              (createReq_of (Data x)) (updateReq_of (Data x)))
    as (Hc & Hg & Hu & Hd).
  unfold adds_at_most_one_client_error, AddError.
  split; [|split; [|split; [|split]]].
  - unfold Create, net_bind. destruct (HasError (GetDiags x)).
    { split; [by left | by left]. }
    destruct (Client.CreateTeam T D client (createReq_of (Data x)) s) as [[team|e] s1].
    + split; [by left | exact Hc].
    + split; [right; by eexists | exact Hc].
  - unfold Read, net_bind. destruct (HasError (GetDiags x)).
    { split; [by left | by left]. }
    destruct (Client.GetTeam T D client (ValueString (ID (Data x))) s) as [[team|e] s1].
    + split; [by left | exact Hg].
    + case_decide; (split; [|exact Hg]); [by left | right; by eexists].
  - unfold Update, net_bind. destruct (HasError (GetDiags x)).
    { split; [by left | by left]. }
    destruct (Client.UpdateTeam T D client (ValueString (ID (Data x)))
                (updateReq_of (Data x)) s) as [[team|e] s1].
    + split; [by left | exact Hu].
    + split; [right; by eexists | exact Hu].
  - unfold Delete, net_bind. destruct (HasError (GetDiags x)).
    { split; [by left | by left]. }
    destruct (Client.DeleteTeam T client (ValueString (ID (Data x))) s) as [[e|] s1].
    + split; [right; by eexists | exact Hd].
    + split; [by left | exact Hd].
  - intros Herr. unfold Create, Read, Update, Delete. by rewrite Herr.
Qed.

(** X9. Whatever the API answers, a state that Read leaves in place has the
    identifier, the site and the members of the prior state: Read never
    takes the identifier from the response and never touches the
    members. *)
Theorem Read_keeps_local_fields client prior s d :
  resp_State (Read T D client prior s).1 = Some d →
  ID d = ID (Data prior)
  ∧ SiteId d = SiteId (Data prior)
  ∧ Members d = Members (Data prior).
Proof.
  unfold Read, net_bind. destruct (HasError (GetDiags prior)).
  { simpl. by intros [= <-]. }
  destruct (Client.GetTeam T D client (ValueString (ID (Data prior))) s)
    as [[team|e] s1].
  - simpl. by intros [= <-].
  - case_decide; simpl; [done | by intros [= <-]].
Qed.

(** X10. Create, given a plan decoded without error: a state is saved exactly
    when no error is reported, and then the team was created; the saved
    state takes the identifier, organization, creator and lifecycle state
    from the response, keeps the display name, description, team type and
    site of the plan, and takes the members from the response when it
    lists any. *)
Theorem Create_saves_iff_no_error client plan s :
  HasError (GetDiags plan) = false →
  (HasError (resp_Diagnostics (Create T D client plan s).1) = false
   ↔ is_Some (resp_State (Create T D client plan s).1))
  ∧ ∀ d, resp_State (Create T D client plan s).1 = Some d →
      ∃ team,
        (Client.CreateTeam T D client (createReq_of (Data plan)) s).1 = Ok team
        ∧ ID d = StringValue (Client.TeamID team)
        ∧ OrganizationId d = StringValue (Client.OrganizationId team)
        ∧ CreatorId d = StringValue (Client.CreatorId team)
        ∧ State d = StringValue (Client.State team)
        ∧ DisplayName d = DisplayName (Data plan)
        ∧ Description d = Description (Data plan)
        ∧ TeamType d = TeamType (Data plan)
        ∧ SiteId d = SiteId (Data plan)
        ∧ Members d = match Client.Members team with
                      | Some ms => SetValue (memberModel <$> ms)
                      | None => Members (Data plan)
                      end.
Proof.
  intros Hd. unfold Create, net_bind. rewrite Hd.
  destruct (Client.CreateTeam T D client (createReq_of (Data plan)) s)
    as [[team|e] s1]; simpl.
  - split; [by split; [eexists|]|]. intros d [= <-]. exists team. by simpl.
  - split; [|done]. unfold AddError, HasError. rewrite existsb_app. simpl.
    rewrite orb_true_r. split; [done | by intros [? ?]].
Qed.

(** X11. Update never drops the resource. When it reports an error, 404 from
    the API included, the prior state is left as it was; when it reports
    none, the team was updated and the new state takes the display name,
    description, team type, organization and lifecycle state from the
    response and keeps the identifier, site, creator and members of the
    plan. *)
Theorem Update_error_keeps_prior_state client plan priorState s :
  (HasError (resp_Diagnostics (Update T D client plan priorState s).1) = true →
   resp_State (Update T D client plan priorState s).1 = Some priorState)
  ∧ (HasError (resp_Diagnostics (Update T D client plan priorState s).1) = false →
     ∃ team d,
       (Client.UpdateTeam T D client (ValueString (ID (Data plan)))
          (updateReq_of (Data plan)) s).1 = Ok team
       ∧ resp_State (Update T D client plan priorState s).1 = Some d
       ∧ DisplayName d = StringValue (Client.DisplayName team)
       ∧ Description d = StringValue (Client.Description team)
       ∧ TeamType d = StringValue (Client.TeamType team)
       ∧ OrganizationId d = StringValue (Client.OrganizationId team)
       ∧ State d = StringValue (Client.State team)
       ∧ ID d = ID (Data plan)
       ∧ SiteId d = SiteId (Data plan)
       ∧ CreatorId d = CreatorId (Data plan)
       ∧ Members d = Members (Data plan))
  ∧ (∀ resp w',
       HasError (GetDiags plan) = false →
       answers T (updateTeam_request client (ValueString (ID (Data plan)))
                    (updateReq_of (Data plan))) s resp w' →
       StatusCode resp = 404 →
       (Update T D client plan priorState s).1
       = mkOpResponse (Some priorState)
           (AddError "Client Error"
              ("Unable to update team, got error: team not found: "
               +:+ ValueString (ID (Data plan))) (GetDiags plan))).
Proof.
  split; [|split].
  - unfold Update, net_bind. destruct (HasError (GetDiags plan)) eqn:Hd; [done|].
    destruct (Client.UpdateTeam T D client (ValueString (ID (Data plan)))
                (updateReq_of (Data plan)) s) as [[team|e] s1]; simpl; [|done].
    by rewrite Hd.
  - unfold Update, net_bind. destruct (HasError (GetDiags plan)) eqn:Hd.
    { simpl. by rewrite Hd. }
    destruct (Client.UpdateTeam T D client (ValueString (ID (Data plan)))
                (updateReq_of (Data plan)) s) as [[team|e] s1]; simpl.
    + intros _. exists team. eexists. by repeat split.
    + unfold AddError, HasError. rewrite existsb_app. simpl.
      by rewrite orb_true_r.
  - intros resp w' Hd Hans Hst. unfold Update, net_bind. rewrite Hd.
    unfold Client.UpdateTeam, Client.makeRequest, net_bind.
    rewrite (makeRequestWithHeaders_answers T _ _ _ _ _ _ _ _ Hans).
    rewrite decide_True by exact Hst. done.
Qed.


End ResourceBehaviour.

(** ** Provider configuration *)

Lemma HasPathError_AddAttributeError attribute summary detail d :
  HasPathError (AddAttributeError attribute summary detail d) = true.
Proof.
  unfold HasPathError, AddAttributeError. rewrite existsb_app. simpl.
  by rewrite orb_true_r.
Qed.

Lemma HasPathError_AddAttributeWarning attribute summary detail d :
  HasPathError (AddAttributeWarning attribute summary detail d) = HasPathError d.
Proof.
  unfold HasPathError, AddAttributeWarning. rewrite existsb_app. simpl.
  by rewrite orb_false_r.
Qed.

Lemma setting_resolves (configured : TfString) (fromEnv : string) :
  (if negb (StringIsNull configured) then ValueString configured else fromEnv)
  = setting configured fromEnv.
Proof. by destruct configured. Qed.

Section CurrentProvider.
Context (getenv : string → string).
Import Provider.

(** No attribute is unknown: the first block adds nothing. *)
Lemma unknownChecks_known data diags :
  ApiToken data ≠ StringUnknown → Email data ≠ StringUnknown →
  Organization data ≠ StringUnknown → SiteId data ≠ StringUnknown →
  OrgId data ≠ StringUnknown →
  unknownChecks data diags = diags.
Proof.
  intros H1 H2 H3 H4 H5. unfold unknownChecks.
  destruct (ApiToken data); try congruence;
    destruct (Email data); try congruence;
    destruct (Organization data); try congruence;
    destruct (SiteId data); try congruence;
    destruct (OrgId data); try congruence; reflexivity.
Qed.

(** An unknown attribute among the five: the first block reports an
    error. *)
Lemma unknownChecks_unknown data diags :
  ApiToken data = StringUnknown ∨ Email data = StringUnknown
  ∨ Organization data = StringUnknown ∨ SiteId data = StringUnknown
  ∨ OrgId data = StringUnknown →
  HasPathError (unknownChecks data diags) = true.
Proof.
  intros H. unfold unknownChecks.
  destruct (StringIsUnknown (OrgId data)) eqn:H5;
    [apply HasPathError_AddAttributeError|].
  destruct (StringIsUnknown (SiteId data)) eqn:H4;
    [apply HasPathError_AddAttributeError|].
  destruct (StringIsUnknown (Organization data)) eqn:H3;
    [apply HasPathError_AddAttributeError|].
  destruct (StringIsUnknown (Email data)) eqn:H2;
    [apply HasPathError_AddAttributeError|].
  destruct (StringIsUnknown (ApiToken data)) eqn:H1;
    [apply HasPathError_AddAttributeError|].
  exfalso. destruct H as [H|[H|[H|[H|H]]]]; rewrite H in *; done.
Qed.

Lemma missingChecks_present apiToken organization orgId diags :
  apiToken ≠ EmptyString → orgId ≠ EmptyString →
  missingChecks apiToken organization orgId diags = diags.
Proof.
  intros Ht Ho. unfold missingChecks.
  rewrite (decide_False (P := apiToken = EmptyString)) by exact Ht.
  rewrite (decide_False (P := orgId = EmptyString)) by exact Ho.
  rewrite decide_False; [done|]. by intros [_ ?].
Qed.

Lemma missingChecks_missing apiToken organization orgId diags :
  apiToken = EmptyString ∨ orgId = EmptyString →
  HasPathError (missingChecks apiToken organization orgId diags) = true.
Proof.
  intros H. unfold missingChecks. cbv zeta.
  destruct (decide (apiToken = EmptyString)), (decide (orgId = EmptyString)),
    (decide (organization = EmptyString ∧ orgId = EmptyString));
    rewrite ?HasPathError_AddAttributeWarning;
    try apply HasPathError_AddAttributeError; tauto.
Qed.

Lemma unknownChecks_no_error data diags :
  HasPathError (unknownChecks data diags) = false →
  ApiToken data ≠ StringUnknown ∧ Email data ≠ StringUnknown
  ∧ Organization data ≠ StringUnknown ∧ SiteId data ≠ StringUnknown
  ∧ OrgId data ≠ StringUnknown.
Proof.
  intros H. repeat split; intros E;
    rewrite unknownChecks_unknown in H; try done; tauto.
Qed.

(** The two outcomes of [Configure]. *)
Lemma Configure_cases config :
  (configurable getenv config
   ∧ Configure getenv config
     = mkConfigureResponse (ConfigDiags config)
         (Some (configured_client getenv (ConfigData config)))
         (Some (configured_client getenv (ConfigData config))))
  ∨ (¬ configurable getenv config
     ∧ ResourceData (Configure getenv config) = None
     ∧ DataSourceData (Configure getenv config) = None
     ∧ HasPathError (Diagnostics_ (Configure getenv config)) = true).
Proof.
  unfold Configure. cbv zeta. rewrite !setting_resolves.
  destruct (HasPathError (ConfigDiags config)) eqn:Hd.
  { right. split; [|done]. intros [H _]. congruence. }
  destruct (HasPathError (unknownChecks (ConfigData config) (ConfigDiags config)))
    eqn:Hu.
  { right. split; [|done]. intros (_ & H1 & H2 & H3 & H4 & H5 & _).
    rewrite unknownChecks_known in Hu by done. congruence. }
  apply unknownChecks_no_error in Hu as Hknown.
  destruct Hknown as (H1 & H2 & H3 & H4 & H5).
  rewrite unknownChecks_known by done.
  destruct (decide (setting (ApiToken (ConfigData config))
                      (getenv "ATLASSIAN_API_TOKEN") = EmptyString)) as [Ht|Ht].
  { right. rewrite missingChecks_missing by (by left). cbn [ResourceData
      DataSourceData Diagnostics_].
    split; [|by rewrite missingChecks_missing by (by left)].
    intros (_ & _ & _ & _ & _ & _ & H & _). done. }
  destruct (decide (setting (OrgId (ConfigData config))
                      (getenv "ATLASSIAN_ORG_ID") = EmptyString)) as [Ho|Ho].
  { right. rewrite missingChecks_missing by (by right). cbn [ResourceData
      DataSourceData Diagnostics_].
    split; [|by rewrite missingChecks_missing by (by right)].
    intros (_ & _ & _ & _ & _ & _ & _ & H). done. }
  left. split; [done|]. rewrite missingChecks_present by done. rewrite Hd.
  reflexivity.
Qed.

(** X13. [Configure] makes a client available exactly for a configurable
    input, and then as both resource and data-source data, leaving the
    diagnostics as they came in (no warning is added on success);
    otherwise it hands out no client and the diagnostics carry an error. *)
Theorem Configure_client_iff config :
  (is_Some (ResourceData (Configure getenv config))
   ↔ configurable getenv config)
  ∧ ResourceData (Configure getenv config)
    = DataSourceData (Configure getenv config)
  ∧ (HasPathError (Diagnostics_ (Configure getenv config)) = true
     ↔ ResourceData (Configure getenv config) = None)
  ∧ (is_Some (ResourceData (Configure getenv config)) →
     Diagnostics_ (Configure getenv config) = ConfigDiags config).
Proof.
  destruct (Configure_cases config) as [[Hok ->]|(Hno & -> & -> & ->)]; simpl.
  - pose proof Hok as [Hd _]. rewrite Hd.
    split; [split; [done | by eexists]|]. split; [done|].
    split; [split; done | done].
  - split; [split; [by intros [? ?] | done]|]. split; [done|].
    split; [done | by intros [? ?]].
Qed.

(** X14. Resolution order. The client that [Configure] builds takes each
    setting from the configuration unless the attribute is null, and only
    then from its environment variable; an empty base URL, whether it
    comes from either source or from an unknown base_url, becomes
    https://api.atlassian.com. *)
Theorem Configure_resolution_order config c :
  ResourceData (Configure getenv config) = Some c →
  c = configured_client getenv (ConfigData config)
  ∧ Client.BaseURL c ≠ EmptyString
  ∧ (BaseUrl (ConfigData config) = StringUnknown →
     Client.BaseURL c = "https://api.atlassian.com").
Proof.
  destruct (Configure_cases config) as [[Hok ->]|(Hno & -> & _)]; simpl; [|done].
  intros [= <-]. split; [done|]. simpl. unfold base_url_setting. split.
  - case_decide; done.
  - intros Hb. rewrite Hb. reflexivity.
Qed.

(** X15. A client that [Configure] hands out has a token and an organization
    id; so its team paths are built from the organization id, and the
    fallback of [getTeamAPIPath] to the legacy organization name is never
    taken. *)
Theorem configured_client_paths_use_org_id config c endpoint :
  ResourceData (Configure getenv config) = Some c →
  Client.APIToken c ≠ EmptyString
  ∧ Client.OrgId c ≠ EmptyString
  ∧ Client.getTeamAPIPath c endpoint
    = "/public/teams/v1/org/" +:+ Client.OrgId c +:+ endpoint.
Proof.
  destruct (Configure_cases config) as [[Hok ->]|(Hno & -> & _)]; simpl; [|done].
  intros [= <-]. destruct Hok as (_ & _ & _ & _ & _ & _ & Ht & Ho).
  split; [exact Ht|]. split; [exact Ho|].
  unfold Client.getTeamAPIPath. simpl. by rewrite decide_False.
Qed.
(** X16. From the provider to the resource: given what the provider's
    [Configure] left as resource data, the resource's [Configure] never
    reports an error (the type assertion cannot fail); it stores the
    configured client when the input was configurable, and otherwise
    leaves the resource as it was, without a client of its own making and
    without a diagnostic. *)
Theorem provider_to_resource_Configure config r diags :
  (Resource.Configure r
     (providerData_of (ResourceData (Configure getenv config))) diags).2 = diags
  ∧ (configurable getenv config →
     Resource.r_client
       (Resource.Configure r
          (providerData_of (ResourceData (Configure getenv config))) diags).1
     = Some (configured_client getenv (ConfigData config)))
  ∧ (¬ configurable getenv config →
     (Resource.Configure r
        (providerData_of (ResourceData (Configure getenv config))) diags).1 = r).
Proof.
  destruct (Configure_cases config) as [[Hok ->]|(Hno & -> & _ & _)]; simpl.
  - split; [done|]. split; [done|]. intros Hn. by destruct Hn.
  - split; [done|]. split; [|done]. intros Hc. by destruct Hno.
Qed.
End CurrentProvider.

Section TheLegacyProvider.
Context (getenv : string → string).
Import LegacyProvider.

Lemma legacy_unknownChecks_known data diags :
  ApiToken data ≠ StringUnknown → Email data ≠ StringUnknown →
  Organization data ≠ StringUnknown →
  unknownChecks data diags = diags.
Proof.
  intros H1 H2 H3. unfold unknownChecks.
  destruct (ApiToken data); try congruence;
    destruct (Email data); try congruence;
    destruct (Organization data); try congruence; reflexivity.
Qed.

Lemma legacy_unknownChecks_unknown data diags :
  ApiToken data = StringUnknown ∨ Email data = StringUnknown
  ∨ Organization data = StringUnknown →
  HasPathError (unknownChecks data diags) = true.
Proof.
  intros H. unfold unknownChecks.
  destruct (StringIsUnknown (Organization data)) eqn:H3;
    [apply HasPathError_AddAttributeError|].
  destruct (StringIsUnknown (Email data)) eqn:H2;
    [apply HasPathError_AddAttributeError|].
  destruct (StringIsUnknown (ApiToken data)) eqn:H1;
    [apply HasPathError_AddAttributeError|].
  exfalso. destruct H as [H|[H|H]]; rewrite H in *; done.
Qed.

Lemma legacy_missingChecks_present apiToken email organization diags :
  apiToken ≠ EmptyString → email ≠ EmptyString → organization ≠ EmptyString →
  missingChecks apiToken email organization diags = diags.
Proof.
  intros Ht He Ho. unfold missingChecks.
  rewrite (decide_False (P := apiToken = EmptyString)) by exact Ht.
  rewrite (decide_False (P := email = EmptyString)) by exact He.
  by rewrite (decide_False (P := organization = EmptyString)) by exact Ho.
Qed.

Lemma legacy_missingChecks_missing apiToken email organization diags :
  apiToken = EmptyString ∨ email = EmptyString ∨ organization = EmptyString →
  HasPathError (missingChecks apiToken email organization diags) = true.
Proof.
  intros H. unfold missingChecks. cbv zeta.
  destruct (decide (apiToken = EmptyString)), (decide (email = EmptyString)),
    (decide (organization = EmptyString));
    try apply HasPathError_AddAttributeError; tauto.
Qed.

Lemma legacy_Configure_cases config :
  (legacy_configurable getenv config
   ∧ Configure getenv config
     = mkConfigureResponse (ConfigDiags config)
         (Some (legacy_configured_client getenv (ConfigData config)))
         (Some (legacy_configured_client getenv (ConfigData config))))
  ∨ (¬ legacy_configurable getenv config
     ∧ ResourceData (Configure getenv config) = None
     ∧ DataSourceData (Configure getenv config) = None
     ∧ HasPathError (Diagnostics_ (Configure getenv config)) = true).
Proof.
  unfold Configure. cbv zeta. rewrite !setting_resolves.
  destruct (HasPathError (ConfigDiags config)) eqn:Hd.
  { right. split; [|done]. intros [H _]. congruence. }
  destruct (HasPathError (unknownChecks (ConfigData config) (ConfigDiags config)))
    eqn:Hu.
  { right. split; [|done]. intros (_ & H1 & H2 & H3 & _).
    rewrite legacy_unknownChecks_known in Hu by done. congruence. }
  assert (ApiToken (ConfigData config) ≠ StringUnknown
          ∧ Email (ConfigData config) ≠ StringUnknown
          ∧ Organization (ConfigData config) ≠ StringUnknown) as (H1 & H2 & H3).
  { repeat split; intros E;
      rewrite legacy_unknownChecks_unknown in Hu; try done; tauto. }
  rewrite legacy_unknownChecks_known by done.
  destruct (decide (setting (ApiToken (ConfigData config))
                      (getenv "ATLASSIAN_API_TOKEN") = EmptyString)) as [Ht|Ht].
  { right. rewrite legacy_missingChecks_missing by (by left).
    cbn [ResourceData DataSourceData Diagnostics_].
    split; [|by rewrite legacy_missingChecks_missing by (by left)].
    intros (_ & _ & _ & _ & H & _). done. }
  destruct (decide (setting (Email (ConfigData config))
                      (getenv "ATLASSIAN_EMAIL") = EmptyString)) as [He|He].
  { right. rewrite legacy_missingChecks_missing by (right; by left).
    cbn [ResourceData DataSourceData Diagnostics_].
    split; [|by rewrite legacy_missingChecks_missing by (right; by left)].
    intros (_ & _ & _ & _ & _ & H & _). done. }
  destruct (decide (setting (Organization (ConfigData config))
                      (getenv "ATLASSIAN_ORGANIZATION") = EmptyString)) as [Ho|Ho].
  { right. rewrite legacy_missingChecks_missing by (right; by right).
    cbn [ResourceData DataSourceData Diagnostics_].
    split; [|by rewrite legacy_missingChecks_missing by (right; by right)].
    intros (_ & _ & _ & _ & _ & _ & H). done. }
  left. split; [done|]. rewrite legacy_missingChecks_present by done. rewrite Hd.
  reflexivity.
Qed.

(** X17. The legacy provider (provider.go) makes a client available exactly
    when the configuration decodes without error, api_token, email and
    organization are known and all three resolve to a non-empty value
    (configuration first, environment for a null attribute); the client
    then carries exactly those values and a non-empty base URL. Otherwise
    no client is handed out and the diagnostics carry an error. *)
Theorem legacy_Configure_client_iff config :
  (is_Some (ResourceData (Configure getenv config))
   ↔ legacy_configurable getenv config)
  ∧ (∀ c, ResourceData (Configure getenv config) = Some c →
       c = legacy_configured_client getenv (ConfigData config)
       ∧ Legacy.Email c ≠ EmptyString
       ∧ Legacy.Organization c ≠ EmptyString
       ∧ Legacy.BaseURL c ≠ EmptyString)
  ∧ (HasPathError (Diagnostics_ (Configure getenv config)) = true
     ↔ ResourceData (Configure getenv config) = None).
Proof.
  destruct (legacy_Configure_cases config) as [[Hok ->]|(Hno & -> & _ & ->)]; simpl.
  - pose proof Hok as (Hd & _ & _ & _ & _ & He & Ho). rewrite Hd.
    split; [split; [done | by eexists]|]. split; [|split; done].
    intros c [= <-]. split; [done|]. split; [exact He|]. split; [exact Ho|].
    simpl. unfold base_url_setting. by case_decide.
  - split; [split; [by intros [? ?] | done]|]. split; [done | done].
Qed.
End TheLegacyProvider.

(** ** The legacy client and resource *)

Section LegacyBehaviour.
Context (T : Transport) (G : Legacy.Runtime).
Import Legacy.

Lemma legacy_makeRequest_answers c method path body s resp w' :
  answers T (buildRequest G c method path body) s resp w' →
  makeRequest T G c method path body s
  = (Ok resp, mkNetState w' (sent s ++ [buildRequest G c method path body])).
Proof.
  intros [Hnew Hrt]. rewrite legacy_makeRequest_sent by exact Hnew.
  simpl. by rewrite Hrt.
Qed.


(** X18. Status handling of the legacy client, once the transport has
    answered: [CreateTeam] accepts 201 only (200 is an error),
    [AddTeamMember] accepts 200 and 201, [RemoveTeamMember] and
    [DeleteTeam] accept 200 and 204 and also treat 404 as done. *)
Theorem legacy_client_status c teamID accountID member createReq s resp w' :
  (answers T (legacy_createTeam_request G c createReq) s resp w' →
   is_ok (CreateTeam T G c createReq s).1 = true
   ↔ StatusCode resp = 201 ∧ is_ok (decodeTeam G (Body resp)) = true)
  ∧ (answers T (addTeamMember_request G c teamID member) s resp w' →
     (AddTeamMember T G c teamID member s).1 = None
     ↔ StatusCode resp = 200 ∨ StatusCode resp = 201)
  ∧ (answers T (removeTeamMember_request G c teamID accountID) s resp w' →
     (RemoveTeamMember T G c teamID accountID s).1 = None
     ↔ StatusCode resp = 200 ∨ StatusCode resp = 204 ∨ StatusCode resp = 404)
  ∧ (answers T (legacy_deleteTeam_request G c teamID) s resp w' →
     (DeleteTeam T G c teamID s).1 = None
     ↔ StatusCode resp = 200 ∨ StatusCode resp = 204 ∨ StatusCode resp = 404).
Proof.
  split; [|split; [|split]]; intros Hans;
    unfold CreateTeam, AddTeamMember, RemoveTeamMember, DeleteTeam, net_bind;
    rewrite (legacy_makeRequest_answers _ _ _ _ _ _ _ Hans);
    unfold StatusCreated, StatusOK, StatusNotFound, StatusNoContent, net_ret.
  - case_decide as Hst; simpl.
    + split; [done|]. by intros [? _].
    + assert (StatusCode resp = 201) as -> by lia.
      destruct (decodeTeam G (Body resp)); simpl; split; try done.
      by intros [_ ?].
  - case_decide as Hst; simpl; split; try done; lia.
  - repeat case_decide; simpl; split; try done; try lia; auto.
  - repeat case_decide; simpl; split; try done; try lia; auto.
Qed.

(** X19. The legacy Create answered with any status other than 201: an error
    is reported with status and body, no state is saved, and no member is
    added: the request that tried to create the team is the only one. *)
Theorem legacy_Create_failure_adds_nobody client plan s resp w' :
  HasError (GetDiags plan) = false →
  answers T (legacy_createTeam_request G client (createReq_of client (Data plan)))
    s resp w' →
  StatusCode resp ≠ 201 →
  Create T G client plan s
  = (mkOpResponse None
       (AddError "Client Error"
          ("Unable to create team, got error: API error creating team: "
           +:+ Status resp +:+ " - " +:+ Body resp) (GetDiags plan)),
     mkNetState w'
       (sent s ++ [legacy_createTeam_request G client
                     (createReq_of client (Data plan))])).
Proof.
  intros Hd Hans Hst. unfold Create, net_bind. rewrite Hd.
  unfold CreateTeam, net_bind.
  rewrite (legacy_makeRequest_answers _ _ _ _ _ _ _ Hans).
  by rewrite decide_True.
Qed.


(** X21. Declared members are keyed by account identifier: the map holds one
    entry per distinct declared account, and when an account is declared
    more than once the last declaration is the one that is kept (and
    sent). *)
Theorem newMemberMap_last_wins (before after : list TeamMemberModel)
    (member : TeamMemberModel) :
  dom (newMemberMap_of (before ++ member :: after))
  = declared_accounts (before ++ member :: after)
  ∧ (ValueString (m_AccountID member)
     ∉ (λ m, ValueString (m_AccountID m)) <$> after →
     newMemberMap_of (before ++ member :: after)
       !! ValueString (m_AccountID member) = Some member).
Proof.
  split; [apply dom_newMemberMap_of|].
  unfold newMemberMap_of. rewrite fold_left_app. simpl.
  generalize (fold_left
                (λ (m : gmap string TeamMemberModel) (member0 : TeamMemberModel),
                   <[ValueString (m_AccountID member0):=member0]> m) before ∅).
  intros m0 Hnot.
  assert (∀ (l : list TeamMemberModel) (m : gmap string TeamMemberModel) k v,
            k ∉ (λ x, ValueString (m_AccountID x)) <$> l → m !! k = Some v →
            fold_left (λ m x, <[ValueString (m_AccountID x) := x]> m) l m !! k
            = Some v) as Hkeep.
  { induction l as [|x l IH]; intros m k v Hk Hm; simpl; [done|].
    rewrite fmap_cons in Hk. apply not_elem_of_cons in Hk as [Hne Hk].
    apply IH; [done|]. by rewrite lookup_insert_ne. }
  apply Hkeep; [done|]. apply lookup_insert_eq.
Qed.

(** X22. The legacy Read, once the team is fetched: the members are asked for
    under the identifier of the response; if that fails, a single warning
    is added, no error, and the state is saved with the members it had;
    if it succeeds, the members of the state are replaced by the fetched
    ones. Either way the stored identifier is kept. *)
Theorem legacy_Read_members client prior team s s1 :
  HasError (GetDiags prior) = false →
  GetTeam T G client (ValueString (ID (Data prior))) s = (Ok team, s1) →
  (∀ e s2,
     GetTeamMembers T G client (team_ID team) s1 = (Err e, s2) →
     ∃ d, Read T G client prior s
          = (mkOpResponse (Some d)
               (AddWarning "Members Read Error"
                  ("Unable to read team members: " +:+ e) (GetDiags prior)), s2)
          ∧ HasError (resp_Diagnostics (Read T G client prior s).1) = false
          ∧ m_Members d = m_Members (Data prior)
          ∧ ID d = ID (Data prior)
          ∧ m_Name d = StringValue (Name team))
  ∧ (∀ members s2,
       GetTeamMembers T G client (team_ID team) s1 = (Ok members, s2) →
       ∃ d, Read T G client prior s = (mkOpResponse (Some d) (GetDiags prior), s2)
            ∧ m_Members d = SetValue (memberModel <$> members)
            ∧ ID d = ID (Data prior)
            ∧ m_Name d = StringValue (Name team)).
Proof.
  intros Hd Hget. split.
  - intros e s2 Hmem. eexists. unfold Read, net_bind. rewrite Hd, Hget, Hmem.
    split; [reflexivity|]. simpl. split; [|done].
    unfold AddWarning, HasError. rewrite existsb_app. simpl.
    rewrite orb_false_r. exact Hd.
  - intros members s2 Hmem. eexists. unfold Read, net_bind.
    rewrite Hd, Hget, Hmem. split; [reflexivity|]. done.
Qed.
End LegacyBehaviour.

(** ** Instances *)

(** X2, an instance: a restore answered with 204 succeeds. *)
Lemma RestoreTeam_succeeds_iff_204_witness :
  (Client.RestoreTeam (Samples.answering Samples.noContent) Samples.client
     "org-1" "T1" (Samples.fresh Samples.noContent)).1 = None.
Proof.
  apply (proj1 (RestoreTeam_succeeds_iff_204 (Samples.answering Samples.noContent)
                  Samples.client "org-1" "T1" (Samples.fresh Samples.noContent)
                  Samples.noContent () (conj eq_refl eq_refl))).
  reflexivity.
Defined.

(** X3, an instance: a Get answered with 200 and the body of team T1 yields T1. *)
Lemma team_calls_succeed_iff_witness :
  (Client.GetTeam (Samples.answering (Samples.ok "team T1")) Samples.codec
     Samples.client "T1" (Samples.fresh (Samples.ok "team T1"))).1
  = Ok Samples.teamT1.
Proof.
  apply (proj1 (proj2 (team_calls_succeed_iff
                  (Samples.answering (Samples.ok "team T1")) Samples.codec
                  Samples.client "T1"
                  (Client.mkCreateTeamRequest "Dev Team" EmptyString "OPEN" EmptyString)
                  (Client.mkUpdateTeamRequest "Dev Team" EmptyString)
                  (Samples.fresh (Samples.ok "team T1"))
                  (Samples.ok "team T1") () Samples.teamT1))
               (conj eq_refl eq_refl)).
  split; reflexivity.
Defined.

(** X8, an instance: Create with a plan that could not be decoded sends nothing and adds nothing. *)
Lemma resource_ops_one_request_one_error_witness :
  Resource.Create (Samples.answering (Samples.created "team T1")) Samples.codec
    Samples.client Scenarios.brokenPlan (Samples.fresh (Samples.created "team T1"))
  = (Resource.mkOpResponse None (Resource.GetDiags Scenarios.brokenPlan),
     Samples.fresh (Samples.created "team T1")).
Proof.
  apply (resource_ops_one_request_one_error
           (Samples.answering (Samples.created "team T1")) Samples.codec
           Samples.client Scenarios.brokenPlan Samples.stateT1
           (Samples.fresh (Samples.created "team T1"))).
  reflexivity.
Defined.

(** X9, an instance: Read of T1 keeps the stored identifier and the members A and C. *)
Lemma Read_keeps_local_fields_witness :
  ∃ d,
    Resource.resp_State
      (Resource.Read (Samples.answering (Samples.ok "team T1")) Samples.codec
         Samples.client (Resource.mkDecoded [] Samples.stateT1)
         (Samples.fresh (Samples.ok "team T1"))).1 = Some d
    ∧ Resource.ID d = StringValue "T1"
    ∧ Resource.Members d = SetValue [Samples.member "A"; Samples.member "C"].
Proof.
  exists (Resource.mkModel (StringValue "T1") (StringValue "Dev Team")
            (StringValue EmptyString) (StringValue "OPEN") StringNull
            (StringValue "org-1") (StringValue "creator-1") (StringValue "ACTIVE")
            (SetValue [Samples.member "A"; Samples.member "C"])).
  split; [reflexivity|].
  destruct (Read_keeps_local_fields (Samples.answering (Samples.ok "team T1"))
              Samples.codec Samples.client (Resource.mkDecoded [] Samples.stateT1)
              (Samples.fresh (Samples.ok "team T1")) _ eq_refl)
    as (Hid & _ & Hmem).
  split; [exact Hid | exact Hmem].
Defined.

(** X10, an instance: a creation answered with 201 and the body of team T1 saves a state. *)
Lemma Create_saves_iff_no_error_witness :
  HasError [] = false
  ∧ is_Some (Resource.resp_State
               (Resource.Create (Samples.answering (Samples.created "team T1"))
                  Samples.codec Samples.client
                  (Resource.mkDecoded [] Samples.planNew)
                  (Samples.fresh (Samples.created "team T1"))).1).
Proof.
  split; [reflexivity|].
  apply (proj1 (Create_saves_iff_no_error
                  (Samples.answering (Samples.created "team T1")) Samples.codec
                  Samples.client (Resource.mkDecoded [] Samples.planNew)
                  (Samples.fresh (Samples.created "team T1")) eq_refl)).
  vm_compute. reflexivity.
Defined.

(** X11, an instance: an update answered with 404 leaves the prior state. *)
Lemma Update_error_keeps_prior_state_witness :
  Resource.resp_State
    (Resource.Update (Samples.answering Samples.notFound) Samples.codec
       Samples.client (Resource.mkDecoded [] Samples.planT1) Samples.stateT1
       (Samples.fresh Samples.notFound)).1
  = Some Samples.stateT1.
Proof.
  apply (Update_error_keeps_prior_state (Samples.answering Samples.notFound)
           Samples.codec Samples.client (Resource.mkDecoded [] Samples.planT1)
           Samples.stateT1 (Samples.fresh Samples.notFound)).
  vm_compute. reflexivity.
Defined.


(** X13, an instance: with token and organization id in the environment and an empty provider block, no diagnostic is left. *)
Lemma Configure_client_iff_witness :
  Provider.Diagnostics_ (Provider.Configure Scenarios.environment Scenarios.emptyConfig)
  = [].
Proof.
  apply (Configure_client_iff Scenarios.environment Scenarios.emptyConfig).
  vm_compute. by eexists.
Defined.

(** X14, an instance: the configured token wins over the environment and an unknown base URL becomes the default. *)
Lemma Configure_resolution_order_witness :
  ∃ c,
    Provider.ResourceData
      (Provider.Configure Scenarios.environment Scenarios.unknownUrlConfig) = Some c
    ∧ Client.APIToken c = "token"
    ∧ Client.BaseURL c = "https://api.atlassian.com".
Proof.
  exists (Client.mkClient "token" EmptyString EmptyString EmptyString "org-9"
            "https://api.atlassian.com").
  split; [reflexivity|].
  destruct (Configure_resolution_order Scenarios.environment
              Scenarios.unknownUrlConfig _ eq_refl) as (_ & _ & Hurl).
  split; [reflexivity | exact (Hurl eq_refl)].
Defined.

(** X15, an instance: the team paths of the client configured from the environment. *)
Lemma configured_client_paths_use_org_id_witness :
  ∃ c,
    Provider.ResourceData
      (Provider.Configure Scenarios.environment Scenarios.emptyConfig) = Some c
    ∧ Client.getTeamAPIPath c "/teams" = "/public/teams/v1/org/org-1/teams".
Proof.
  exists (Client.mkClient "env-token" EmptyString EmptyString EmptyString "org-1"
            "https://api.atlassian.com").
  split; [reflexivity|].
  exact (proj2 (proj2 (configured_client_paths_use_org_id Scenarios.environment
                         Scenarios.emptyConfig _ "/teams" eq_refl))).
Defined.

(** X17, an instance: the legacy client takes the configured organization and the rest from the environment. *)
Lemma legacy_Configure_client_iff_witness :
  ∃ c,
    LegacyProvider.ResourceData
      (LegacyProvider.Configure Scenarios.legacyEnvironment Scenarios.legacyConfig)
    = Some c
    ∧ Legacy.Organization c = "globex"
    ∧ Legacy.BaseURL c ≠ EmptyString.
Proof.
  exists (Legacy.mkClient "env-token" "admin@example.com" "globex"
            "https://api.atlassian.com").
  split; [reflexivity|].
  destruct (proj1 (proj2 (legacy_Configure_client_iff Scenarios.legacyEnvironment
                            Scenarios.legacyConfig)) _ eq_refl) as (_ & _ & _ & Hurl).
  split; [reflexivity | exact Hurl].
Defined.

(** X18, an instance: removing a member that the API does not know (404) succeeds. *)
Lemma legacy_client_status_witness :
  (Legacy.RemoveTeamMember (Samples.answering Samples.notFound) Samples.runtime
     Samples.legacyClient "T1" "C" (Samples.fresh Samples.notFound)).1 = None.
Proof.
  apply (proj1 (proj2 (proj2 (legacy_client_status
                  (Samples.answering Samples.notFound) Samples.runtime
                  Samples.legacyClient "T1" "C" (Samples.remoteMember "C")
                  (Legacy.createReq_of Samples.legacyClient Samples.legacyPlan)
                  (Samples.fresh Samples.notFound) Samples.notFound ())))
               (conj eq_refl eq_refl)).
  right. right. reflexivity.
Defined.

(** X19, an instance: a legacy creation answered with 200 saves nothing and adds no member. *)
Lemma legacy_Create_failure_adds_nobody_witness :
  sent (Legacy.Create (Samples.answering (Samples.ok "team T1")) Samples.runtime
          Samples.legacyClient (Legacy.mkDecoded [] Samples.legacyPlan)
          (Samples.fresh (Samples.ok "team T1"))).2
  = [legacy_createTeam_request Samples.runtime Samples.legacyClient
       (Legacy.createReq_of Samples.legacyClient Samples.legacyPlan)]
  ∧ Legacy.resp_State
      (Legacy.Create (Samples.answering (Samples.ok "team T1")) Samples.runtime
         Samples.legacyClient (Legacy.mkDecoded [] Samples.legacyPlan)
         (Samples.fresh (Samples.ok "team T1"))).1 = None.
Proof.
  rewrite (legacy_Create_failure_adds_nobody
             (Samples.answering (Samples.ok "team T1")) Samples.runtime
             Samples.legacyClient (Legacy.mkDecoded [] Samples.legacyPlan)
             (Samples.fresh (Samples.ok "team T1")) (Samples.ok "team T1") ()
             eq_refl (conj eq_refl eq_refl) ltac:(simpl; lia)).
  split; reflexivity.
Defined.


(** X21, an instance: account A declared twice: the second declaration is kept. *)
Lemma newMemberMap_last_wins_witness :
  Legacy.newMemberMap_of
    [Scenarios.memberWithRole "A" "admin"; Scenarios.memberWithRole "B" "member";
     Scenarios.memberWithRole "A" "member"] !! "A"
  = Some (Scenarios.memberWithRole "A" "member").
Proof.
  apply (newMemberMap_last_wins
           [Scenarios.memberWithRole "A" "admin"; Scenarios.memberWithRole "B" "member"]
           [] (Scenarios.memberWithRole "A" "member")).
  simpl. apply not_elem_of_nil.
Defined.

(** X22, an instance: a legacy Read whose members request is refused warns and keeps the declared members. *)
Lemma legacy_Read_members_witness :
  ∃ d s2,
    Legacy.Read Samples.scripted Samples.runtime Samples.legacyClient
      (Legacy.mkDecoded [] Samples.legacyPlan) (Samples.play [inr (Samples.ok "team T1")])
    = (Legacy.mkOpResponse (Some d)
         (AddWarning "Members Read Error"
            "Unable to read team members: error getting team members: error making request: connection refused"
            []), s2)
    ∧ Legacy.m_Members d
      = SetValue [Samples.legacyMember "A"; Samples.legacyMember "B"].
Proof.
  pose (s1 := @mkNetState Samples.scripted []
                [Legacy.buildRequest Samples.runtime Samples.legacyClient "GET"
                   (Legacy.teamsPath Samples.legacyClient +:+ "/" +:+ "T1") None]).
  pose (s2 := @mkNetState Samples.scripted []
                (sent s1 ++
                 [Legacy.buildRequest Samples.runtime Samples.legacyClient "GET"
                    (Legacy.teamsPath Samples.legacyClient +:+ "/" +:+ "T1"
                     +:+ "/members") None])).
  destruct (proj1 (legacy_Read_members Samples.scripted Samples.runtime
                     Samples.legacyClient (Legacy.mkDecoded [] Samples.legacyPlan)
                     Samples.legacyTeam (Samples.play [inr (Samples.ok "team T1")])
                     s1 eq_refl eq_refl)
              "error getting team members: error making request: connection refused"
              s2 eq_refl)
    as (d & Hread & _ & Hmem & _).
  exists d, s2. split; [exact Hread | exact Hmem].
Defined.

(** X6, an instance: an add-members call answered with 200 yields the decoded response, errors included. *)
Lemma collection_calls_succeed_iff_witness :
  (Client.AddTeamMembers (Samples.answering (Samples.ok "2 ok, 1 error"))
     Samples.codec Samples.client "org-1" "T1"
     [Client.mkTeamMember "A"; Client.mkTeamMember "B"; Client.mkTeamMember "C"]
     (Samples.fresh (Samples.ok "2 ok, 1 error"))).1
  = Ok Samples.partialAdd.
Proof.
  apply (proj1 (proj2 (proj2 (proj2 (collection_calls_succeed_iff
                  (Samples.answering (Samples.ok "2 ok, 1 error")) Samples.codec
                  Samples.client "org-1" "T1" EmptyString EmptyString EmptyString
                  0 0 ["T1"]
                  [Client.mkTeamMember "A"; Client.mkTeamMember "B";
                   Client.mkTeamMember "C"]
                  (Samples.fresh (Samples.ok "2 ok, 1 error"))
                  (Samples.ok "2 ok, 1 error") ()))))
               (conj eq_refl eq_refl)).
  split; reflexivity.
Defined.

(** X16, an instance: the resource receives the client configured from the environment. *)
Lemma provider_to_resource_Configure_witness :
  Resource.r_client
    (Resource.Configure (Resource.mkTeamResource None)
       (providerData_of
          (Provider.ResourceData
             (Provider.Configure Scenarios.environment Scenarios.emptyConfig)))
       []).1
  = Some (Client.mkClient "env-token" EmptyString EmptyString EmptyString "org-1"
            "https://api.atlassian.com").
Proof.
  apply (provider_to_resource_Configure Scenarios.environment
           Scenarios.emptyConfig (Resource.mkTeamResource None) []).
  repeat split; vm_compute; congruence.
Defined.
